(** * SysView (app.js): formatters, collectors, geolocation client and router

    A shallow embedding of [src/app.js].

    - Numbers are the values of doubles: rationals extended with [NaN] and
      the two infinities.  An operation whose exact result need not be a
      double is followed by [round64], rounding to the nearest double with
      ties to even: the three operations of the usage percentage and the
      quotients of [formatTime_double].  Remainders, [Math.floor] and the
      quotient by a power of 1024 in [formatBytes] are exact on doubles and
      carry no rounding.  [formatTime] is the exact-arithmetic counterpart of
      [formatTime_double]; the two agree on doubles below [2 ^ 53].
      [Math.floor (Math.log (b) / Math.log (k))] is the integer logarithm
      [ilog], the floor of the exact quotient ([log_floor_real]): the
      logarithm is left to the platform by the language, and its rounding
      is not modelled.
    - Exceptions are an explicit [completion]; [try]/[catch] is [try_catch].
    - Objects are association lists in insertion order, which is the order
      in which [JSON.stringify] emits their members.
    - The host is read once per request: [Host] holds what the [os] and
      [process] modules report, and the settled outcome of the single
      [axios.get] call is an input of the handler.  Console output is not
      modelled. *)

From Stdlib Require Import ZArith QArith Qround Qabs Qpower Reals Psatz String Ascii List Bool.
Import ListNotations.

Local Open Scope string_scope.
Local Open Scope Z_scope.

(** ** Exceptions *)

(** Why the promise returned by [axios.get] was rejected. *)
Inductive axios_failure : Type :=
  | NetworkError
  | BadStatus (status : Z)
  | TimedOut.

Inductive error : Type :=
  | TypeError
  | RangeError
  | AxiosError (why : axios_failure).

Inductive completion (A : Type) : Type :=
  | Normal (a : A)
  | Throw (e : error).

Arguments Normal {A} a.
Arguments Throw {A} e.

Definition bind {A B : Type} (c : completion A) (k : A -> completion B)
  : completion B :=
  match c with
  | Normal a => k a
  | Throw e => Throw e
  end.

Notation "x <- c ;; k" := (bind c (fun x => k))
  (at level 61, c at next level, right associativity).

(** [try { body } catch (error) { handler }] *)
Definition try_catch {A : Type} (body : completion A) (handler : error -> completion A)
  : completion A :=
  match body with
  | Normal a => Normal a
  | Throw e => handler e
  end.

(** ** Numbers *)

Inductive number : Type :=
  | NaN
  | PosInf
  | NegInf
  | Fin (q : Q).

Definition of_int (z : Z) : number := Fin (inject_Z z).

Definition Qsign_neg (q : Q) : bool := (Qnum q <? 0)%Z.
Definition Qis_zero (q : Q) : bool := (Qnum q =? 0)%Z.

(** [a / b] *)
Definition num_div (a b : number) : number :=
  match a, b with
  | NaN, _ | _, NaN => NaN
  | Fin x, Fin y =>
      if Qis_zero y
      then (if Qis_zero x then NaN else if Qsign_neg x then NegInf else PosInf)
      else Fin (x / y)
  | Fin _, (PosInf | NegInf) => Fin 0
  | (PosInf | NegInf), (PosInf | NegInf) => NaN
  | PosInf, Fin y => if Qsign_neg y then NegInf else PosInf
  | NegInf, Fin y => if Qsign_neg y then PosInf else NegInf
  end.

(** [a - b] *)
Definition num_sub (a b : number) : number :=
  match a, b with
  | NaN, _ | _, NaN => NaN
  | Fin x, Fin y => Fin (x - y)
  | Fin _, PosInf => NegInf
  | Fin _, NegInf => PosInf
  | PosInf, NegInf | PosInf, Fin _ => PosInf
  | NegInf, PosInf | NegInf, Fin _ => NegInf
  | PosInf, PosInf | NegInf, NegInf => NaN
  end.

(** [a * b] *)
Definition num_mul (a b : number) : number :=
  match a, b with
  | NaN, _ | _, NaN => NaN
  | Fin x, Fin y => Fin (x * y)
  | Fin x, PosInf | PosInf, Fin x =>
      if Qis_zero x then NaN else if Qsign_neg x then NegInf else PosInf
  | Fin x, NegInf | NegInf, Fin x =>
      if Qis_zero x then NaN else if Qsign_neg x then PosInf else NegInf
  | PosInf, PosInf | NegInf, NegInf => PosInf
  | PosInf, NegInf | NegInf, PosInf => NaN
  end.

(** [Math.floor] and truncation toward zero on finite values. *)
Definition Math_floor (q : Q) : Z := Qfloor q.

Definition Qtrunc (q : Q) : Z := if Qsign_neg q then Qceiling q else Qfloor q.

(** [a % n] for a finite [a] and a non-zero finite [n]: the remainder has the
    sign of the dividend. *)
Definition js_rem (a n : Q) : Q := (a - n * inject_Z (Qtrunc (a / n)))%Q.

(** ** Rounding to the nearest double *)

(** [2 ^ e] for an integer exponent of either sign. *)
Definition two_pow (e : Z) : Q := Qpower 2 e.

(** The integer nearest to [n / d], the even one on a tie. *)
Definition round_half_even (n : Z) (d : positive) : Z :=
  let q := n / Zpos d in
  let r := n mod Zpos d in
  match 2 * r ?= Zpos d with
  | Lt => q
  | Gt => q + 1
  | Eq => if Z.even q then q else q + 1
  end.

Definition Qround_even (x : Q) : Z := round_half_even (Qnum x) (Qden x).

(** The floor of the binary logarithm of a positive rational. *)
Definition Qlog2 (x : Q) : Z :=
  let t := Z.log2 (Qnum x) - Z.log2 (Zpos (Qden x)) in
  if Qle_bool (two_pow t) x then t else t - 1.

(** The exponent of the last bit of a double of the magnitude of [x]: 53
    bits of significand, and no exponent below that of the subnormals. *)
Definition exponent64 (x : Q) : Z := Z.max (Qlog2 (Qabs x) - 52) (-1074).

Definition round_at (e : Z) (x : Q) : Q :=
  (inject_Z (Qround_even (x / two_pow e)) * two_pow e)%Q.

(** The double nearest to [x], short of overflow. *)
Definition nearest64 (x : Q) : Q := Qred (round_at (exponent64 x) x).

(** Rounding to nearest, ties to even, with overflow to an infinity. *)
Definition round64 (x : Q) : number :=
  let y := nearest64 x in
  if Qle_bool (two_pow 1024) (Qabs y)
  then (if Qsign_neg y then NegInf else PosInf)
  else Fin y.

(** The result of an arithmetic operation, as a double. *)
Definition fl (x : number) : number :=
  match x with
  | Fin q => round64 q
  | _ => x
  end.

(** Whether a rational is the value of a finite double. *)
Definition is_double (x : Q) : bool :=
  Qeq_bool (nearest64 x) x && negb (Qle_bool (two_pow 1024) (Qabs x)).

(** ** Decimal numerals *)

Definition digit_char (d : Z) : ascii := ascii_of_nat (48 + Z.to_nat d).

Fixpoint decimal_digits (fuel : nat) (n : Z) (acc : string) : string :=
  match fuel with
  | O => acc
  | S fuel' =>
      let acc' := String (digit_char (n mod 10)) acc in
      if n <? 10 then acc' else decimal_digits fuel' (n / 10) acc'
  end.

(** The decimal digits of a non-negative integer, most significant first. *)
Definition decimal (n : Z) : string :=
  decimal_digits (S (Z.to_nat (Z.log2 n))) n "".

Fixpoint zeros (n : nat) : string :=
  match n with
  | O => ""
  | S n' => String "0"%char (zeros n')
  end.

Definition is_integer (q : Q) : bool := (Qnum q mod Zpos (Qden q) =? 0)%Z.

(** ** Stand-ins for the platform functions

    The model is parametric in two functions of the platform; these two
    instances serve to run it on sample inputs. *)

(** No sample input reaches the shortest-numeral rendering. *)
Definition unused_repr (q : Q) : string := "".

(** The request target up to its query or fragment. *)
Fixpoint target_path (u : string) : string :=
  match u with
  | EmptyString => ""
  | String c rest =>
      if Ascii.eqb c "?"%char || Ascii.eqb c "#"%char then ""
      else String c (target_path rest)
  end.

Definition simple_pathname (u : string) : option string :=
  match target_path u with
  | EmptyString => None
  | p => Some p
  end.

Section SysView.

(** [Number::toString] on the values whose rendering depends on the binary
    representation of the double: finite numbers that are not integers, and
    those of magnitude [2^53] or more (the shortest numeral that reads back
    as the double, padded with zeros, or exponent notation from [10^21]). *)
Variable Number_toString_shortest : Q -> string.

(** The [pathname] that [url.parse (req.url, true)] extracts: [None] is
    [null]. *)
Variable url_parse_pathname : string -> option string.

(** [Number::toString] *)
Definition Number_toString (x : number) : string :=
  match x with
  | NaN => "NaN"
  | PosInf => "Infinity"
  | NegInf => "-Infinity"
  | Fin q =>
      if is_integer q && (Z.abs (Qfloor q) <? 2 ^ 53)
      then (if Qfloor q <? 0 then "-" ++ decimal (- Qfloor q) else decimal (Qfloor q))
      else Number_toString_shortest q
  end.

(** The last steps of [toFixed] for a non-zero digit count [fd]: pad the
    digits [m] with zeros up to [fd + 1] characters and put the point before
    the last [fd]. *)
Definition place_point (m : string) (fd : nat) : string :=
  let k := String.length m in
  let m := if (k <=? fd)%nat then zeros (fd + 1 - k) ++ m else m in
  let k := if (k <=? fd)%nat then (fd + 1)%nat else k in
  substring 0 (k - fd) m ++ "." ++ substring (k - fd) fd m.

(** [Number.prototype.toFixed (fractionDigits)] *)
Definition toFixed (x : number) (fractionDigits : Z) : completion string :=
  let f := fractionDigits in
  if (f <? 0) || (100 <? f) then Throw RangeError
  else
    match x with
    | Fin q =>
        let s := if Qsign_neg q then "-" else "" in
        let q := if Qsign_neg q then (- q)%Q else q in
        if Qle_bool (inject_Z (10 ^ 21)) q
        then Normal (s ++ Number_toString (Fin q))
        else
          let n := Qfloor (q * inject_Z (10 ^ f) + (1 # 2))%Q in
          let m := if n =? 0 then "0" else decimal n in
          let m := if f =? 0 then m else place_point m (Z.to_nat f) in
          Normal (s ++ m)
    | _ => Normal (Number_toString x)
    end.

(** ** Formatters *)

Definition sizes : list string := ["Bytes"; "KB"; "MB"; "GB"; "TB"].

(** The largest [i] with [k ^ i <= b], for [1 <= b] and [2 <= k]. *)
Fixpoint ilog (fuel : nat) (k b : Z) : Z :=
  match fuel with
  | O => 0
  | S fuel' => if b <? k then 0 else 1 + ilog fuel' k (b / k)
  end.

(** [Math.floor (Math.log (bytes) / Math.log (k))] on integers, [1 < k]:
    the floor of the exact logarithm.  The code's quotient of two rounded
    logarithms has the same floor unless the count lies within a few parts
    in [10 ^ 15] of a power of [k], where it may already be the next
    integer; for [k = 1024] that concerns the counts just below [1024 ^ 5]
    only. *)
Definition log_floor (bytes k : Z) : number :=
  if bytes <? 0 then NaN
  else if bytes =? 0 then NegInf
  else of_int (ilog (S (Z.to_nat (Z.log2 bytes))) k bytes).

(** [Math.pow (k, i)] for an integer [k] greater than 1 and an [i] produced
    by [log_floor]. *)
Definition Math_pow (k : Z) (i : number) : number :=
  match i with
  | NaN => NaN
  | PosInf => PosInf
  | NegInf => of_int 0
  | Fin e => if Qfloor e <? 0 then Fin (1 / inject_Z (k ^ (- Qfloor e)))
             else of_int (k ^ Qfloor e)
  end.

(** [sizes[i]]: [None] is [undefined]. *)
Definition element_at (l : list string) (i : number) : option string :=
  match i with
  | Fin e => if is_integer e && (0 <=? Qfloor e) then nth_error l (Z.to_nat (Qfloor e))
             else None
  | _ => None
  end.

(** String concatenation with a value that may be [undefined]. *)
Definition or_undefined (o : option string) : string :=
  match o with
  | Some s => s
  | None => "undefined"
  end.

(** [parseFloat (x)] on a number: [x] is printed as the shortest numeral
    that reads back as [x], and read back. *)
Definition parseFloat (x : number) : number := x.

(** The default of [formatBytes]'s second parameter. *)
Definition default_decimal : Z := 2.

Definition formatBytes (bytes : Z) (decimal : Z) : completion string :=
  if bytes =? 0 then Normal "0 Bytes"
  else
    let k := 1024 in
    let i := log_floor bytes k in
    fixed <- toFixed (parseFloat (num_div (of_int bytes) (Math_pow k i))) decimal ;;
    Normal (fixed ++ " " ++ or_undefined (element_at sizes i)).

(** The decomposition of [formatTime] in exact arithmetic: what
    [formatTime_double] below computes when no quotient is rounded. *)
Definition formatTime (seconds : Q) : string :=
  let days := Math_floor (seconds / inject_Z (3600 * 24)) in
  let hours := Math_floor (js_rem seconds (inject_Z (3600 * 24)) / inject_Z 3600) in
  let minutes := Math_floor (js_rem seconds (inject_Z 3600) / inject_Z 60) in
  let remainingSeconds := Math_floor (js_rem seconds (inject_Z 60)) in
  Number_toString (of_int days) ++ "d " ++ Number_toString (of_int hours) ++ "h "
    ++ Number_toString (of_int minutes) ++ "m "
    ++ Number_toString (of_int remainingSeconds) ++ "s".

(** [a / b] in doubles, for a finite [a] and a constant [b] of magnitude 1 or
    more, so that the quotient cannot overflow. *)
Definition div64 (a b : Q) : Q := nearest64 (a / b).

(** The four numbers that [formatTime] prints, as the code computes them:
    the quotients are rounded to doubles, remainders and floors are exact. *)
Definition formatTime_parts (seconds : Q) : Z * Z * Z * Z :=
  (Math_floor (div64 seconds (inject_Z (3600 * 24))),
   Math_floor (div64 (js_rem seconds (inject_Z (3600 * 24))) (inject_Z 3600)),
   Math_floor (div64 (js_rem seconds (inject_Z 3600)) (inject_Z 60)),
   Math_floor (js_rem seconds (inject_Z 60))).

(** [formatTime (seconds)], for a double [seconds]. *)
Definition formatTime_double (seconds : Q) : string :=
  let '(days, hours, minutes, remainingSeconds) := formatTime_parts seconds in
  Number_toString (of_int days) ++ "d " ++ Number_toString (of_int hours) ++ "h "
    ++ Number_toString (of_int minutes) ++ "m "
    ++ Number_toString (of_int remainingSeconds) ++ "s".

(** ** Values *)

#[warnings="-register-all"] Inductive value : Type :=
  | VUndefined
  | VNull
  | VBool (b : bool)
  | VNum (x : number)
  | VStr (s : string)
  | VArr (items : list value)
  | VObj (props : list (string * value)).

Fixpoint lookup (props : list (string * value)) (key : string) : option value :=
  match props with
  | [] => None
  | (k, v) :: rest => if String.eqb k key then Some v else lookup rest key
  end.

Definition has_own (props : list (string * value)) (key : string) : bool :=
  match lookup props key with
  | Some _ => true
  | None => false
  end.

(** [v.key] for a data property name [key] that no built-in prototype
    defines ([model], [city], [region], [country], [loc], [location],
    [coordinates], ...): reading it off [undefined] or [null] throws. *)
Definition member (v : value) (key : string) : completion value :=
  match v with
  | VUndefined | VNull => Throw TypeError
  | VObj props =>
      match lookup props key with
      | Some x => Normal x
      | None => Normal VUndefined
      end
  | _ => Normal VUndefined
  end.

(** [l[0]] *)
Definition first (l : list value) : value :=
  match l with
  | [] => VUndefined
  | x :: _ => x
  end.

(** [ToString], as a template literal applies it.  A plain object prints
    through [Object.prototype.toString] unless an own data property shadows
    [toString], in which case no primitive is obtained; an array prints
    through [join]. *)
Fixpoint ToString (v : value) : completion string :=
  match v with
  | VUndefined => Normal "undefined"
  | VNull => Normal "null"
  | VBool true => Normal "true"
  | VBool false => Normal "false"
  | VNum x => Normal (Number_toString x)
  | VStr s => Normal s
  | VArr items =>
      (fix join (l : list value) : completion string :=
         match l with
         | [] => Normal ""
         | x :: rest =>
             s <- match x with
                  | VUndefined | VNull => Normal ""
                  | _ => ToString x
                  end ;;
             match rest with
             | [] => Normal s
             | _ :: _ => t <- join rest ;; Normal (s ++ "," ++ t)
             end
         end) items
  | VObj props =>
      if has_own props "toString" then Throw TypeError
      else Normal "[object Object]"
  end.

(** ** JSON.stringify *)

Definition dq : string := String "034"%char "".
Definition nl : string := String "010"%char "".

Definition hex_digit (n : nat) : ascii :=
  if (n <? 10)%nat then ascii_of_nat (48 + n) else ascii_of_nat (87 + n).

Definition quote_char (c : ascii) : string :=
  let n := nat_of_ascii c in
  if (n =? 8)%nat then "\b"
  else if (n =? 9)%nat then "\t"
  else if (n =? 10)%nat then "\n"
  else if (n =? 12)%nat then "\f"
  else if (n =? 13)%nat then "\r"
  else if (n =? 34)%nat then "\" ++ dq
  else if (n =? 92)%nat then "\\"
  else if (n <? 32)%nat
       then "\u00" ++ String (hex_digit (n / 16)) (String (hex_digit (n mod 16)) "")
  else String c "".

Fixpoint quote_body (s : string) : string :=
  match s with
  | EmptyString => ""
  | String c rest => quote_char c ++ quote_body rest
  end.

(** [QuoteJSONString] *)
Definition QuoteJSONString (s : string) : string := dq ++ quote_body s ++ dq.

Fixpoint join_with (sep : string) (parts : list string) : string :=
  match parts with
  | [] => ""
  | [p] => p
  | p :: rest => p ++ sep ++ join_with sep rest
  end.

Definition wrap (open close gap stepback indent : string) (partial : list string)
  : string :=
  match partial with
  | [] => open ++ close
  | _ :: _ =>
      if String.eqb gap ""
      then open ++ join_with "," partial ++ close
      else open ++ nl ++ indent ++ join_with ("," ++ nl ++ indent) partial
             ++ nl ++ stepback ++ close
  end.

(** [SerializeJSONProperty]: [None] is [undefined]. *)
Fixpoint SerializeJSONProperty (gap indent : string) (v : value) : option string :=
  match v with
  | VUndefined => None
  | VNull => Some "null"
  | VBool true => Some "true"
  | VBool false => Some "false"
  | VNum (Fin q) => Some (Number_toString (Fin q))
  | VNum _ => Some "null"
  | VStr s => Some (QuoteJSONString s)
  | VArr items =>
      let partial :=
        (fix elements (l : list value) : list string :=
           match l with
           | [] => []
           | x :: rest =>
               match SerializeJSONProperty gap (indent ++ gap) x with
               | Some s => s
               | None => "null"
               end :: elements rest
           end) items in
      Some (wrap "[" "]" gap indent (indent ++ gap) partial)
  | VObj props =>
      let partial :=
        (fix members (l : list (string * value)) : list string :=
           match l with
           | [] => []
           | (k, x) :: rest =>
               match SerializeJSONProperty gap (indent ++ gap) x with
               | Some s =>
                   (QuoteJSONString k ++ ":" ++ (if String.eqb gap "" then "" else " ")
                      ++ s) :: members rest
               | None => members rest
               end
           end) props in
      Some (wrap "{" "}" gap indent (indent ++ gap) partial)
  end.

(** [JSON.stringify (v)] and [JSON.stringify (v, null, 2)] *)
Definition JSON_stringify (v : value) : option string :=
  SerializeJSONProperty "" "" v.

Definition JSON_stringify_2 (v : value) : option string :=
  SerializeJSONProperty "  " "" v.

(** ** Host platform *)

Record memory_usage : Type := {
  rss : Z;
  heapTotal : Z;
  heapUsed : Z;
  external : Z
}.

(** The own properties of a plain object, in insertion order. *)
Definition object : Type := list (string * value).

(** What the [os] and [process] modules report while one request is served.
    [os.cpus ()] is an array of objects, [os.userInfo ()] and
    [os.networkInterfaces ()] are objects. *)
Record Host : Type := {
  os_cpus : list object;
  os_arch : string;
  os_loadavg : list number;
  os_totalmem : Z;
  os_freemem : Z;
  os_platform : string;
  os_type : string;
  os_release : string;
  os_hostname : string;
  os_uptime : Q;
  os_userInfo : object;
  os_networkInterfaces : object;
  process_pid : Z;
  process_title : string;
  process_version : string;
  process_uptime : Q;
  process_memoryUsage : memory_usage;
  process_env : list (string * string)
}.

(** [process.env.NAME]: [None] is [undefined]. *)
Fixpoint getenv (env : list (string * string)) (name : string) : option string :=
  match env with
  | [] => None
  | (k, v) :: rest => if String.eqb k name then Some v else getenv rest name
  end.

(** [a || b] on an environment entry: [undefined] and the empty string are
    the falsy cases. *)
Definition or_else (a : option string) (b : string) : string :=
  match a with
  | Some s => if String.eqb s "" then b else s
  | None => b
  end.

(** ** Collectors *)

Definition getCpuInfo (h : Host) : completion value :=
  model <- member (first (map VObj (os_cpus h))) "model" ;;
  Normal (VObj [("model", model);
                ("cores", VNum (of_int (Z.of_nat (List.length (os_cpus h)))));
                ("architecture", VStr (os_arch h));
                ("loadAvg", VArr (map VNum (os_loadavg h)))]).

(** [(1 - free / total) * 100]: each of the three operations yields a double. *)
Definition usage_percent (free total : Z) : number :=
  fl (num_mul (fl (num_sub (of_int 1) (fl (num_div (of_int free) (of_int total)))))
        (of_int 100)).

Definition getMemoryInfo (h : Host) : completion value :=
  total <- formatBytes (os_totalmem h) default_decimal ;;
  free <- formatBytes (os_freemem h) default_decimal ;;
  usage <- toFixed (usage_percent (os_freemem h) (os_totalmem h)) 2 ;;
  Normal (VObj [("total", VStr total); ("free", VStr free); ("usage", VStr (usage ++ "%"))]).

Definition getOsInfo (h : Host) : completion value :=
  Normal (VObj [("platform", VStr (os_platform h));
                ("type", VStr (os_type h));
                ("release", VStr (os_release h));
                ("hostname", VStr (os_hostname h));
                ("uptime", VStr (formatTime_double (os_uptime h)))]).

Definition getUserInfo (h : Host) : completion value := Normal (VObj (os_userInfo h)).

Definition getProcessInfo (h : Host) : completion value :=
  let mu := process_memoryUsage h in
  m_rss <- formatBytes (rss mu) default_decimal ;;
  m_heapTotal <- formatBytes (heapTotal mu) default_decimal ;;
  m_heapUsed <- formatBytes (heapUsed mu) default_decimal ;;
  m_external <- formatBytes (external mu) default_decimal ;;
  Normal (VObj [("pid", VNum (of_int (process_pid h)));
                ("title", VStr (process_title h));
                ("nodeVersion", VStr (process_version h));
                ("uptime", VStr (formatTime_double (process_uptime h)));
                ("memoryUsage", VObj [("rss", VStr m_rss);
                                      ("heapTotal", VStr m_heapTotal);
                                      ("heapUsed", VStr m_heapUsed);
                                      ("external", VStr m_external)]);
                ("env", VObj [("NODE_ENV",
                               VStr (or_else (getenv (process_env h) "NODE_ENV")
                                       "Not set"))])]).

Definition getNetworkInfo (h : Host) : completion value :=
  Normal (VObj (os_networkInterfaces h)).

(** ** Geolocation client *)

Record response : Type := {
  status : Z;
  data : value
}.

(** How [await axios.get ('https://ipinfo.io/json')] settles. *)
Definition axios_outcome : Type := completion response.

Definition sentinel : value :=
  VObj [("location", VStr "Location not found"); ("coordinates", VStr "Not available")].

(** [const { city, region, country, loc } = response.data] *)
Definition destructure (d : value) : completion (value * value * value * value) :=
  city <- member d "city" ;;
  region <- member d "region" ;;
  country <- member d "country" ;;
  loc <- member d "loc" ;;
  Normal (city, region, country, loc).

Definition getGeolocation (outcome : axios_outcome) : completion value :=
  try_catch
    (response <- outcome ;;
     fields <- destructure (data response) ;;
     let '(city, region, country, loc) := fields in
     s_city <- ToString city ;;
     s_region <- ToString region ;;
     s_country <- ToString country ;;
     Normal (VObj [("location", VStr (s_city ++ ", " ++ s_region ++ ", " ++ s_country));
                   ("coordinates", loc)]))
    (fun _ => Normal sentinel).

(** ** Presenters *)

Definition section_block (title content : string) : string :=
  "<div class=" ++ dq ++ "section" ++ dq ++ ">" ++ nl
    ++ "  <h2>" ++ title ++ "</h2>" ++ nl
    ++ "  <pre>" ++ content ++ "</pre>" ++ nl
    ++ "</div>" ++ nl ++ nl.

(** [${JSON.stringify (data.key, null, 2)}] *)
Definition pretty_member (data : value) (key : string) : completion string :=
  v <- member data key ;;
  Normal (or_undefined (JSON_stringify_2 v)).

Definition buildHtmlPage (data geoData : value) : completion string :=
  cpu <- pretty_member data "cpu" ;;
  memory <- pretty_member data "memory" ;;
  os <- pretty_member data "os" ;;
  user <- pretty_member data "user" ;;
  process <- pretty_member data "process" ;;
  network <- pretty_member data "network" ;;
  location <- (v <- member geoData "location" ;; ToString v) ;;
  coordinates <- (v <- member geoData "coordinates" ;; ToString v) ;;
  Normal
    (nl ++ "<!DOCTYPE html>" ++ nl
       ++ "<html lang=" ++ dq ++ "en" ++ dq ++ ">" ++ nl
       ++ "<head>" ++ nl
       ++ "<meta charset=" ++ dq ++ "UTF-8" ++ dq ++ ">" ++ nl
       ++ "<title>SysView Dashboard</title>" ++ nl
       ++ "<style>" ++ nl
       ++ "  body { font-family: Arial, sans-serif; background-color: #121212; color: #f0f0f0; margin: 20px; }" ++ nl
       ++ "  h1 { color: #00bfff; }" ++ nl
       ++ "  .section { background: #1e1e1e; padding: 20px; margin-bottom: 20px; border-radius: 8px; }" ++ nl
       ++ "  pre { background: #2e2e2e; padding: 10px; border-radius: 5px; overflow-x: auto; }" ++ nl
       ++ "</style>" ++ nl
       ++ "</head>" ++ nl
       ++ "<body>" ++ nl
       ++ "<h1>SysView - System Information</h1>" ++ nl ++ nl
       ++ section_block "CPU Info" cpu
       ++ section_block "Memory Info" memory
       ++ section_block "OS Info" os
       ++ section_block "User Info" user
       ++ section_block "Process Info" process
       ++ section_block "Network Info" network
       ++ "<div class=" ++ dq ++ "section" ++ dq ++ ">" ++ nl
       ++ "  <h2>Geolocation Info</h2>" ++ nl
       ++ "  <pre>Location: " ++ location ++ "</pre>" ++ nl
       ++ "  <pre>Coordinates: " ++ coordinates ++ "</pre>" ++ nl
       ++ "</div>" ++ nl ++ nl
       ++ "</body>" ++ nl
       ++ "</html>" ++ nl ++ "  ").

(** ** Request router *)

Record request : Type := {
  url : string;
  method : string
}.

(** The [res] object: status line, headers in the order they were set, and
    the body once [end] was called. *)
Record ServerResponse : Type := {
  statusCode : Z;
  headers : list (string * string);
  body : option string
}.

Definition fresh_response : ServerResponse :=
  {| statusCode := 200; headers := []; body := None |}.

Definition set_statusCode (code : Z) (res : ServerResponse) : ServerResponse :=
  {| statusCode := code; headers := headers res; body := body res |}.

Definition setHeader (name v : string) (res : ServerResponse) : ServerResponse :=
  {| statusCode := statusCode res;
     headers := filter (fun kv => negb (String.eqb (fst kv) name)) (headers res)
                  ++ [(name, v)];
     body := body res |}.

Definition writeHead (code : Z) (hs : list (string * string)) (res : ServerResponse)
  : ServerResponse :=
  fold_left (fun r kv => setHeader (fst kv) (snd kv) r) hs (set_statusCode code res).

(** [res.end (chunk)]: an [undefined] chunk ends the response with no data. *)
Definition res_end (chunk : option string) (res : ServerResponse) : ServerResponse :=
  {| statusCode := statusCode res;
     headers := headers res;
     body := Some match chunk with Some s => s | None => "" end |}.

(** [parsedUrl.pathname === path] *)
Definition pathname_is (pathname : option string) (path : string) : bool :=
  match pathname with
  | Some p => String.eqb p path
  | None => false
  end.

(** The object literal that both the dashboard and the API route build. *)
Definition collect (h : Host) : completion (list (string * value)) :=
  cpu <- getCpuInfo h ;;
  memory <- getMemoryInfo h ;;
  os <- getOsInfo h ;;
  user <- getUserInfo h ;;
  process <- getProcessInfo h ;;
  network <- getNetworkInfo h ;;
  Normal [("cpu", cpu); ("memory", memory); ("os", os); ("user", user);
          ("process", process); ("network", network)].

(** The callback of [http.createServer]: [Throw] is a rejected handler, in
    which case nothing is written to [res]. *)
Definition handler (h : Host) (geo : axios_outcome) (req : request)
  : completion ServerResponse :=
  let pathname := url_parse_pathname (url req) in
  if pathname_is pathname "/" then
    geoData <- getGeolocation geo ;;
    fields <- collect h ;;
    page <- buildHtmlPage (VObj fields) geoData ;;
    Normal (res_end (Some page)
              (writeHead 200 [("Content-Type", "text/html")] fresh_response))
  else if pathname_is pathname "/api" then
    geoData <- getGeolocation geo ;;
    fields <- collect h ;;
    let data := VObj (fields ++ [("geolocation", geoData)]) in
    Normal (res_end (JSON_stringify_2 data)
              (writeHead 200 [("Content-Type", "application/json")] fresh_response))
  else
    Normal (res_end (JSON_stringify (VObj [("error", VStr "Route not found")]))
              (setHeader "Content-Type" "application/json"
                 (set_statusCode 404 fresh_response))).

(** ** Specification-side renderings *)

(** The integer nearest to [num / den], the larger one on a tie ([0 < den]). *)
Definition round_half_up (num den : Z) : Z := (2 * num + den) / (2 * den).

(** A non-negative count of hundredths written with two decimals. *)
Definition two_places (hundredths : Z) : string :=
  decimal (hundredths / 100) ++ "."
    ++ String (digit_char (hundredths / 10 mod 10))
         (String (digit_char (hundredths mod 10)) "").

(** [(1 - free / total) * 100] with two decimals and a percent sign. *)
Definition usage_spec (total free : Z) : string :=
  two_places (round_half_up ((total - free) * 10000) total) ++ "%".

(** Days, hours, minutes and seconds of a whole number of seconds. *)
Definition duration_parts (t : Z) : Z * Z * Z * Z :=
  (t / 86400, t / 3600 mod 24, t / 60 mod 60, t mod 60).

Definition formatDuration_spec (seconds : Q) : string :=
  let '(d, h, m, s) := duration_parts (Qfloor seconds) in
  Number_toString (of_int d) ++ "d " ++ Number_toString (of_int h) ++ "h "
    ++ Number_toString (of_int m) ++ "m " ++ Number_toString (of_int s) ++ "s".

(** The pretty-printed text of a top-level object whose members have the
    texts given. *)
Definition pretty_object (members : list (string * string)) : string :=
  "{" ++ nl ++ "  "
    ++ join_with ("," ++ nl ++ "  ")
         (map (fun kt => QuoteJSONString (fst kt) ++ ": " ++ snd kt) members)
    ++ nl ++ "}".

(** The text of the sentinel as a member of the API document. *)
Definition sentinel_text : string :=
  "{" ++ nl ++ "    " ++ QuoteJSONString "location" ++ ": "
    ++ QuoteJSONString "Location not found" ++ "," ++ nl ++ "    "
    ++ QuoteJSONString "coordinates" ++ ": " ++ QuoteJSONString "Not available"
    ++ nl ++ "  }".

(** The failures of the outbound call that reach the [catch] block: a
    rejected promise, or a body that cannot be destructured. *)
Inductive caught : axios_outcome -> Prop :=
  | caught_rejected (e : error) : caught (Throw e)
  | caught_null (st : Z) : caught (Normal {| status := st; data := VNull |})
  | caught_undefined (st : Z) : caught (Normal {| status := st; data := VUndefined |}).

(** A fulfilled call whose body lacks one of the four fields. *)
Definition missing_fields (o : axios_outcome) : Prop :=
  exists st props,
    o = Normal {| status := st; data := VObj props |}
    /\ (lookup props "city" = None \/ lookup props "region" = None
        \/ lookup props "country" = None \/ lookup props "loc" = None).

(** The members that [SerializeJSONObject] emits: a property whose value does
    not serialise is skipped. *)
Definition object_members (gap indent : string) (props : object) : list string :=
  flat_map
    (fun kv =>
       match SerializeJSONProperty gap indent (snd kv) with
       | Some s =>
           [QuoteJSONString (fst kv) ++ ":" ++ (if String.eqb gap "" then "" else " ") ++ s]
       | None => []
       end)
    props.

(** A snapshot that carries the two byte counts themselves, as numbers. *)
Definition holds_byte_counts (snapshot : value) (total free : Z) : Prop :=
  exists props k1 k2,
    snapshot = VObj props
    /\ lookup props k1 = Some (VNum (of_int total))
    /\ lookup props k2 = Some (VNum (of_int free)).

(** ** Start-up *)

(** [const PORT = process.env.PORT || 10000] *)
Definition PORT (h : Host) : value :=
  match getenv (process_env h) "PORT" with
  | Some s => if String.eqb s "" then VNum (of_int 10000) else VStr s
  | None => VNum (of_int 10000)
  end.

(** The line that the [listen] callback logs. *)
Definition listening_banner (h : Host) : completion string :=
  port <- ToString (PORT h) ;;
  Normal ("SysView is running at http://localhost:" ++ port).

(** ** Shapes used in the further properties *)

(** A body that is a string, a number, a boolean or an array: it can be
    destructured, and has none of the four fields. *)
Definition fieldless (d : value) : bool :=
  match d with
  | VBool _ | VNum _ | VStr _ | VArr _ => true
  | VUndefined | VNull | VObj _ => false
  end.

(** What [getGeolocation] returns when no field is found. *)
Definition undefined_result : value :=
  VObj [("location", VStr "undefined, undefined, undefined");
        ("coordinates", VUndefined)].

(** The dashboard up to the two geolocation lines, given the six texts. *)
Definition page_head (cpu memory os user process network : string) : string :=
  nl ++ "<!DOCTYPE html>" ++ nl
    ++ "<html lang=" ++ dq ++ "en" ++ dq ++ ">" ++ nl
    ++ "<head>" ++ nl
    ++ "<meta charset=" ++ dq ++ "UTF-8" ++ dq ++ ">" ++ nl
    ++ "<title>SysView Dashboard</title>" ++ nl
    ++ "<style>" ++ nl
    ++ "  body { font-family: Arial, sans-serif; background-color: #121212; color: #f0f0f0; margin: 20px; }" ++ nl
    ++ "  h1 { color: #00bfff; }" ++ nl
    ++ "  .section { background: #1e1e1e; padding: 20px; margin-bottom: 20px; border-radius: 8px; }" ++ nl
    ++ "  pre { background: #2e2e2e; padding: 10px; border-radius: 5px; overflow-x: auto; }" ++ nl
    ++ "</style>" ++ nl
    ++ "</head>" ++ nl
    ++ "<body>" ++ nl
    ++ "<h1>SysView - System Information</h1>" ++ nl ++ nl
    ++ section_block "CPU Info" cpu
    ++ section_block "Memory Info" memory
    ++ section_block "OS Info" os
    ++ section_block "User Info" user
    ++ section_block "Process Info" process
    ++ section_block "Network Info" network
    ++ "<div class=" ++ dq ++ "section" ++ dq ++ ">" ++ nl
    ++ "  <h2>Geolocation Info</h2>" ++ nl.

(** The dashboard after the two geolocation lines. *)
Definition page_tail : string :=
  nl ++ "</div>" ++ nl ++ nl ++ "</body>" ++ nl ++ "</html>" ++ nl ++ "  ".

(** ** Sample inputs *)

Definition sample_host (total free : Z) (env : list (string * string)) : Host :=
  {| os_cpus := [[("model", VStr "Virtual CPU"); ("speed", VNum (of_int 2400))]];
     os_arch := "x64";
     os_loadavg := [of_int 0; of_int 0; of_int 0];
     os_totalmem := total;
     os_freemem := free;
     os_platform := "linux";
     os_type := "Linux";
     os_release := "6.1.0";
     os_hostname := "sysview";
     os_uptime := inject_Z 90061;
     os_userInfo := [("uid", VNum (of_int 1000)); ("username", VStr "node")];
     os_networkInterfaces := [];
     process_pid := 42;
     process_title := "node";
     process_version := "v20.0.0";
     process_uptime := inject_Z 61;
     process_memoryUsage :=
       {| rss := 52428800; heapTotal := 8388608; heapUsed := 4194304; external := 1024 |};
     process_env := env |}.

Definition empty_body : axios_outcome := Normal {| status := 200; data := VObj [] |}.

Definition full_body : axios_outcome :=
  Normal {| status := 200;
            data := VObj [("ip", VStr "203.0.113.7"); ("city", VStr "Tallinn");
                          ("region", VStr "Harjumaa"); ("country", VStr "EE");
                          ("loc", VStr "59.4370,24.7535")] |}.

(** The sample host with an empty CPU list. *)
Definition cpuless_host : Host :=
  {| os_cpus := [];
     os_arch := os_arch (sample_host 1000 250 []);
     os_loadavg := os_loadavg (sample_host 1000 250 []);
     os_totalmem := 1000;
     os_freemem := 250;
     os_platform := "linux";
     os_type := "Linux";
     os_release := "6.1.0";
     os_hostname := "sysview";
     os_uptime := inject_Z 90061;
     os_userInfo := os_userInfo (sample_host 1000 250 []);
     os_networkInterfaces := [];
     process_pid := 42;
     process_title := "node";
     process_version := "v20.0.0";
     process_uptime := inject_Z 61;
     process_memoryUsage := process_memoryUsage (sample_host 1000 250 []);
     process_env := [] |}.

(** A body whose [loc] is an object with a member named [toString]. *)
Definition wrapped_loc : object :=
  [("city", VStr "Tallinn"); ("region", VStr "Harjumaa"); ("country", VStr "EE");
   ("loc", VObj [("toString", VStr "59.4370,24.7535")])].

(** * Properties *)

(** ** The model on sample inputs *)

Example formatBytes_negative : formatBytes (-5) default_decimal = Normal "NaN undefined".
Proof. vm_compute. reflexivity. Qed.

Example formatBytes_precision_range : formatBytes 1536 101 = Throw RangeError.
Proof. vm_compute. reflexivity. Qed.

Example formatBytes_rss : formatBytes 52428800 default_decimal = Normal "50.00 MB".
Proof. vm_compute. reflexivity. Qed.

Example formatTime_fraction : formatTime (180123 # 2) = "1d 1h 1m 1s".
Proof. vm_compute. reflexivity. Qed.

Example usage_without_memory :
  toFixed (usage_percent 0 0) 2 = Normal "NaN" /\ toFixed (usage_percent 5 0) 2 = Normal "-Infinity".
Proof. split; vm_compute; reflexivity. Qed.

Example stringify_compact :
  JSON_stringify (VObj [("a", VArr [VNum (of_int 1); VUndefined]); ("b", VUndefined);
                        ("c", VStr "x")])
  = Some ("{" ++ dq ++ "a" ++ dq ++ ":[1,null]," ++ dq ++ "c" ++ dq ++ ":" ++ dq ++ "x"
            ++ dq ++ "}").
Proof. vm_compute. reflexivity. Qed.

Example stringify_pretty :
  JSON_stringify_2 (VObj [("a", VArr [VNum (of_int 1)]); ("c", VObj [])])
  = Some ("{" ++ nl ++ "  " ++ dq ++ "a" ++ dq ++ ": [" ++ nl ++ "    1" ++ nl ++ "  ],"
            ++ nl ++ "  " ++ dq ++ "c" ++ dq ++ ": {}" ++ nl ++ "}").
Proof. vm_compute. reflexivity. Qed.

Example ToString_array :
  ToString (VArr [VNum (of_int 1); VNull; VArr [VStr "a"; VBool true]]) = Normal "1,,a,true".
Proof. vm_compute. reflexivity. Qed.

Example getGeolocation_unprintable_city :
  getGeolocation
    (Normal {| status := 200; data := VObj [("city", VObj [("toString", VNull)])] |})
  = Normal sentinel.
Proof. vm_compute. reflexivity. Qed.

Example getGeolocation_text_body :
  getGeolocation (Normal {| status := 200; data := VStr "<html></html>" |})
  = Normal (VObj [("location", VStr "undefined, undefined, undefined");
                  ("coordinates", VUndefined)]).
Proof. vm_compute. reflexivity. Qed.

(** ** Decimal numerals *)

Lemma append_assoc (a b c : string) : (a ++ b) ++ c = a ++ b ++ c.
Proof. induction a as [|x a IH]; simpl; [reflexivity | now rewrite IH]. Qed.

Lemma decimal_digits_acc (fuel : nat) :
  forall n acc, decimal_digits fuel n acc = decimal_digits fuel n "" ++ acc.
Proof.
  induction fuel as [|fuel IH]; intros n acc; simpl; [reflexivity|].
  destruct (n <? 10); [reflexivity|].
  rewrite IH, (IH _ (String _ "")), append_assoc. reflexivity.
Qed.

Lemma log2_div10 (n : Z) : 10 <= n -> Z.log2 (n / 10) < Z.log2 n.
Proof.
  intros Hn.
  assert (H1 : 0 < n / 10) by (apply Z.div_str_pos; lia).
  assert (H2 : 2 * (n / 10) <= n).
  { pose proof (Z.mul_div_le n 10 ltac:(lia)). lia. }
  apply Z.log2_le_mono in H2. rewrite Z.log2_double in H2 by lia. lia.
Qed.

Lemma decimal_digits_fuel (f1 : nat) :
  forall f2 n acc, 0 <= n -> Z.log2 n < Z.of_nat f1 -> Z.log2 n < Z.of_nat f2 ->
    decimal_digits f1 n acc = decimal_digits f2 n acc.
Proof.
  induction f1 as [|f1 IH]; intros f2 n acc Hn H1 H2.
  - pose proof (Z.log2_nonneg n). lia.
  - destruct f2 as [|f2]; [pose proof (Z.log2_nonneg n); lia|].
    simpl. destruct (n <? 10) eqn:E; [reflexivity|].
    apply Z.ltb_ge in E. pose proof (log2_div10 n E).
    apply IH; [apply Z.div_pos; lia | lia | lia].
Qed.

Lemma decimal_small (n : Z) : 0 <= n < 10 -> decimal n = String (digit_char n) "".
Proof.
  intros Hn. unfold decimal. simpl.
  destruct (n <? 10) eqn:E; [|apply Z.ltb_ge in E; lia].
  rewrite Z.mod_small by lia. reflexivity.
Qed.

Lemma decimal_step (n : Z) :
  10 <= n -> decimal n = decimal (n / 10) ++ String (digit_char (n mod 10)) "".
Proof.
  intros Hn. unfold decimal at 1. simpl.
  destruct (n <? 10) eqn:E; [apply Z.ltb_lt in E; lia|].
  rewrite decimal_digits_acc. f_equal.
  pose proof (log2_div10 n Hn). pose proof (Z.log2_nonneg (n / 10)).
  apply decimal_digits_fuel; [apply Z.div_pos; lia | lia | lia].
Qed.

Lemma length_append (a b : string) :
  String.length (a ++ b) = (String.length a + String.length b)%nat.
Proof. induction a as [|c a IH]; simpl; [reflexivity | now rewrite IH]. Qed.

Lemma decimal_length_pos (n : Z) : 0 <= n -> (1 <= String.length (decimal n))%nat.
Proof.
  intros Hn. destruct (Z_lt_le_dec n 10) as [Hlt|Hge].
  - rewrite decimal_small by lia. simpl. lia.
  - rewrite decimal_step, length_append by lia. simpl. lia.
Qed.

Lemma substring_prefix (a b : string) : substring 0 (String.length a) (a ++ b) = a.
Proof. induction a as [|c a IH]; simpl; [now destruct b | now rewrite IH]. Qed.

Lemma substring_whole (b : string) : substring 0 (String.length b) b = b.
Proof. induction b as [|c b IH]; simpl; [reflexivity | now rewrite IH]. Qed.

Lemma substring_suffix (a b : string) :
  substring (String.length a) (String.length b) (a ++ b) = b.
Proof. induction a as [|c a IH]; simpl; [apply substring_whole | exact IH]. Qed.

Lemma place_point_two (n : Z) :
  0 <= n -> place_point (if n =? 0 then "0" else decimal n) 2 = two_places n.
Proof.
  intros Hn. unfold two_places.
  assert (Hm : (if n =? 0 then "0" else decimal n) = decimal n).
  { destruct (n =? 0) eqn:E; [|reflexivity]. apply Z.eqb_eq in E. now subst. }
  rewrite Hm. destruct (Z_lt_le_dec n 10) as [H1|H1].
  - rewrite (decimal_small n) by lia.
    rewrite (Z.div_small n 100), (Z.div_small n 10), (Z.mod_small n 10) by lia.
    reflexivity.
  - rewrite (decimal_step n) by lia.
    destruct (Z_lt_le_dec n 100) as [H2|H2].
    + assert (H3 : 0 <= n / 10 < 10).
      { split; [apply Z.div_pos; lia | apply Z.div_lt_upper_bound; lia]. }
      rewrite (decimal_small (n / 10)) by lia.
      rewrite (Z.div_small n 100), (Z.mod_small (n / 10) 10) by lia.
      reflexivity.
    + assert (H3 : 10 <= n / 10) by (apply Z.div_le_lower_bound; lia).
      rewrite (decimal_step (n / 10)) by lia.
      rewrite Z.div_div by lia. change (10 * 10) with 100.
      pose proof (decimal_length_pos (n / 100) ltac:(apply Z.div_pos; lia)) as HL.
      set (a := decimal (n / 100)) in *.
      set (d1 := digit_char (n / 10 mod 10)). set (d0 := digit_char (n mod 10)).
      rewrite append_assoc. simpl.
      unfold place_point. rewrite length_append. simpl String.length.
      destruct (String.length a + 2 <=? 2)%nat eqn:E; [apply Nat.leb_le in E; lia|].
      replace (String.length a + 2 - 2)%nat with (String.length a) by lia.
      rewrite substring_prefix.
      change 2%nat with (String.length (String d1 (String d0 ""))) at 1.
      rewrite substring_suffix. reflexivity.
Qed.

(** ** Rounding to the nearest double *)

Lemma round_half_even_err (n : Z) (d : positive) :
  - Zpos d <= 2 * (round_half_even n d * Zpos d - n) <= Zpos d.
Proof.
  unfold round_half_even.
  pose proof (Z.div_mod n (Zpos d) ltac:(lia)) as Hdm.
  pose proof (Z.mod_pos_bound n (Zpos d) ltac:(lia)) as Hr.
  set (q := n / Zpos d) in *. set (r := n mod Zpos d) in *.
  destruct (Z.compare_spec (2 * r) (Zpos d)) as [H|H|H].
  - destruct (Z.even q); nia.
  - nia.
  - nia.
Qed.

Lemma Qround_even_err (x : Q) :
  (x - (1 # 2) <= inject_Z (Qround_even x) <= x + (1 # 2))%Q.
Proof.
  destruct x as [n d]. unfold Qround_even. cbn [Qnum Qden].
  pose proof (round_half_even_err n d) as H.
  set (m := round_half_even n d) in *.
  unfold Qle, Qminus, Qplus, Qopp, inject_Z. cbn [Qnum Qden].
  rewrite ?Pos2Z.inj_mul. split; nia.
Qed.

Lemma two_pow_pos (e : Z) : (0 < two_pow e)%Q.
Proof. apply Qpower_0_lt. reflexivity. Qed.

Lemma two_pow_add (a b : Z) : (two_pow (a + b) == two_pow a * two_pow b)%Q.
Proof. apply Qpower_plus. discriminate. Qed.

Lemma two_pow_int (e : Z) : 0 <= e -> (two_pow e == inject_Z (2 ^ e))%Q.
Proof. intros H. unfold two_pow. rewrite Zpower_Qpower by exact H. reflexivity. Qed.

Lemma two_pow_le (a b : Z) : a <= b -> (two_pow a <= two_pow b)%Q.
Proof. intros H. apply Qpower_le_compat_l; [exact H | discriminate]. Qed.

Lemma two_pow_lt (a b : Z) : a < b -> (two_pow a < two_pow b)%Q.
Proof. intros H. apply Qpower_lt_compat_l; [exact H | reflexivity]. Qed.

Lemma two_pow_succ (a : Z) : (two_pow (a + 1) == 2 * two_pow a)%Q.
Proof. rewrite two_pow_add. change (two_pow 1) with 2%Q. ring. Qed.

Lemma Qlog2_spec (x : Q) :
  (0 < x)%Q -> (two_pow (Qlog2 x) <= x < two_pow (Qlog2 x + 1))%Q.
Proof.
  intros Hx. destruct x as [a b].
  assert (Ha : 0 < a) by (unfold Qlt in Hx; cbn in Hx; lia).
  unfold Qlog2. cbn [Qnum Qden].
  set (la := Z.log2 a). set (lb := Z.log2 (Zpos b)).
  destruct (Z.log2_spec a Ha) as [Ha1 Ha2]. fold la in Ha1, Ha2.
  destruct (Z.log2_spec (Zpos b) ltac:(lia)) as [Hb1 Hb2]. fold lb in Hb1, Hb2.
  assert (Hla : 0 <= la) by apply Z.log2_nonneg.
  assert (Hlb : 0 <= lb) by apply Z.log2_nonneg.
  assert (Hx_eq : ((a # b) * inject_Z (Zpos b) == inject_Z a)%Q).
  { unfold Qeq, Qmult, inject_Z. cbn. lia. }
  assert (HA1 : (two_pow la <= inject_Z a)%Q).
  { rewrite two_pow_int by lia. rewrite <- Zle_Qle. exact Ha1. }
  assert (HA2 : (inject_Z a < two_pow (la + 1))%Q).
  { rewrite two_pow_int by lia. rewrite <- Zlt_Qlt. replace (la + 1) with (Z.succ la) by lia. exact Ha2. }
  assert (HB1 : (two_pow lb <= inject_Z (Zpos b))%Q).
  { rewrite two_pow_int by lia. rewrite <- Zle_Qle. exact Hb1. }
  assert (HB2 : (inject_Z (Zpos b) < two_pow (lb + 1))%Q).
  { rewrite two_pow_int by lia. rewrite <- Zlt_Qlt. replace (lb + 1) with (Z.succ lb) by lia. exact Hb2. }
  pose proof (two_pow_pos lb) as Hplb.
  pose proof (two_pow_pos (la - lb)) as Hpt.
  assert (E1 : (two_pow la == two_pow (la - lb) * two_pow lb)%Q).
  { rewrite <- two_pow_add. replace (la - lb + lb) with la by lia. reflexivity. }
  pose proof (two_pow_succ la) as S1. pose proof (two_pow_succ lb) as S2.
  pose proof (two_pow_succ (la - lb)) as S3.
  pose proof (two_pow_succ (la - lb - 1)) as S4.
  replace (la - lb - 1 + 1) with (la - lb) in S4 by lia.
  set (x := a # b) in *. set (B := inject_Z (Zpos b)) in *. set (A := inject_Z a) in *.
  set (T := two_pow (la - lb)) in *. set (P := two_pow lb) in *.
  assert (Hup : (x < 2 * T)%Q).
  { apply Qnot_le_lt. intros Hc.
    assert ((2 * T * P <= x * B)%Q).
    { apply Qle_trans with (x * P)%Q; [apply Qmult_le_compat_r; lra | ].
      rewrite (Qmult_comm x P), (Qmult_comm x B). apply Qmult_le_compat_r; lra. }
    lra. }
  assert (Hlo : (T < 2 * x)%Q).
  { apply Qnot_le_lt. intros Hc.
    assert (H1 : (2 * x * B <= T * B)%Q) by (apply Qmult_le_compat_r; lra).
    assert (H2 : (T * B < T * (2 * P))%Q) by (apply Qmult_lt_l; lra).
    lra. }
  destruct (Qle_bool T x) eqn:E.
  - apply Qle_bool_iff in E. split; [exact E | rewrite S3; exact Hup].
  - assert (Hn : ~ (T <= x)%Q) by (intros Hc; apply Qle_bool_iff in Hc; congruence).
    apply Qnot_le_lt in Hn. replace (la - lb - 1 + 1) with (la - lb) by lia.
    split; [lra | exact Hn].
Qed.

Lemma scaled_back (e : Z) (x : Q) : (x / two_pow e * two_pow e == x)%Q.
Proof. pose proof (two_pow_pos e). field. lra. Qed.

Lemma round_at_err (e : Z) (x : Q) :
  (x - two_pow e * (1 # 2) <= round_at e x <= x + two_pow e * (1 # 2))%Q.
Proof.
  unfold round_at. pose proof (two_pow_pos e) as Hp.
  pose proof (Qround_even_err (x / two_pow e)) as [H1 H2].
  pose proof (scaled_back e x) as Hs.
  set (t := (x / two_pow e)%Q) in *. set (m := inject_Z (Qround_even t)) in *.
  set (P := two_pow e) in *.
  assert (G1 : ((t - (1 # 2)) * P <= m * P)%Q) by (apply Qmult_le_compat_r; lra).
  assert (G2 : (m * P <= (t + (1 # 2)) * P)%Q) by (apply Qmult_le_compat_r; lra).
  split; lra.
Qed.

Lemma inject_Z_half_le (m c : Z) : (inject_Z m <= inject_Z c + (1 # 2))%Q -> m <= c.
Proof. unfold Qle, Qplus, inject_Z. cbn. lia. Qed.

Lemma inject_Z_half_ge (m c : Z) : (inject_Z c - (1 # 2) <= inject_Z m)%Q -> c <= m.
Proof. unfold Qle, Qminus, Qplus, Qopp, inject_Z. cbn. lia. Qed.

Lemma scaled_le (e : Z) (x y : Q) : (x <= y * two_pow e -> x / two_pow e <= y)%Q.
Proof.
  intros H. pose proof (two_pow_pos e) as Hp.
  apply Qle_shift_div_r; assumption.
Qed.

Lemma scaled_ge (e : Z) (x y : Q) : (y * two_pow e <= x -> y <= x / two_pow e)%Q.
Proof.
  intros H. pose proof (two_pow_pos e) as Hp.
  apply Qle_shift_div_l; assumption.
Qed.

Lemma round_at_le (e c : Z) (x : Q) :
  (x <= inject_Z c * two_pow e -> round_at e x <= inject_Z c * two_pow e)%Q.
Proof.
  intros H. unfold round_at. pose proof (two_pow_pos e) as Hp.
  apply Qmult_le_compat_r; [|lra]. rewrite <- Zle_Qle.
  apply inject_Z_half_le.
  pose proof (Qround_even_err (x / two_pow e)) as [_ H2].
  pose proof (scaled_le e x _ H). lra.
Qed.

Lemma round_at_ge (e c : Z) (x : Q) :
  (inject_Z c * two_pow e <= x -> inject_Z c * two_pow e <= round_at e x)%Q.
Proof.
  intros H. unfold round_at. pose proof (two_pow_pos e) as Hp.
  apply Qmult_le_compat_r; [|lra]. rewrite <- Zle_Qle.
  apply inject_Z_half_ge.
  pose proof (Qround_even_err (x / two_pow e)) as [H1 _].
  pose proof (scaled_ge e x _ H). lra.
Qed.

Lemma Qlog2_le (x : Q) (E : Z) : (0 < x)%Q -> (x < two_pow (E + 1))%Q -> Qlog2 x <= E.
Proof.
  intros Hx Hlt. destruct (Qlog2_spec x Hx) as [Hlo _].
  destruct (Z_le_gt_dec (Qlog2 x) E) as [|Hgt]; [assumption|exfalso].
  pose proof (two_pow_le (E + 1) (Qlog2 x) ltac:(lia)). lra.
Qed.

Lemma Qlog2_ge (x : Q) (E : Z) : (0 < x)%Q -> (two_pow E <= x)%Q -> E <= Qlog2 x.
Proof.
  intros Hx Hle. destruct (Qlog2_spec x Hx) as [_ Hhi].
  destruct (Z_le_gt_dec E (Qlog2 x)) as [|Hgt]; [assumption|exfalso].
  pose proof (two_pow_le (Qlog2 x + 1) E ltac:(lia)). lra.
Qed.

Lemma Qlog2_zero (x : Q) : Qnum x = 0 -> Qlog2 x <= 0.
Proof.
  intros H. unfold Qlog2. rewrite H. change (Z.log2 0) with 0.
  pose proof (Z.log2_nonneg (Zpos (Qden x))).
  destruct (Qle_bool _ _); lia.
Qed.

(** A bound on the magnitude bounds the exponent. *)
Lemma exponent64_le (x : Q) (E : Z) :
  (0 <= x)%Q -> (x < two_pow (E + 1))%Q -> 0 <= E ->
  exponent64 x <= Z.max (E - 52) (-1074).
Proof.
  intros Hx Hlt HE. unfold exponent64.
  assert (Habs : (Qabs x == x)%Q) by (apply Qabs_pos; exact Hx).
  apply Z.max_le_compat_r.
  destruct (Qlt_le_dec 0 x) as [Hpos|Hz].
  - assert (Hl : Qlog2 (Qabs x) <= E); [|lia].
    apply Qlog2_le; rewrite Habs; assumption.
  - assert (Hn : Qnum x = 0).
    { unfold Qle in Hx, Hz. cbn in Hx, Hz. lia. }
    assert (Hn' : Qnum (Qabs x) = 0).
    { destruct x as [a b]. cbn in *. subst a. reflexivity. }
    pose proof (Qlog2_zero _ Hn'). lia.
Qed.

Lemma int_on_grid (B e : Z) : e <= 0 -> (inject_Z (B * 2 ^ (- e)) * two_pow e == inject_Z B)%Q.
Proof.
  intros He. rewrite inject_Z_mult, <- two_pow_int by lia.
  rewrite <- Qmult_assoc, <- two_pow_add. replace (- e + e) with 0 by lia.
  change (two_pow 0) with 1%Q. ring.
Qed.

Lemma nearest64_bounds (x : Q) (E B : Z) :
  (0 <= x <= inject_Z B)%Q -> (inject_Z B < two_pow (E + 1))%Q -> 0 <= E <= 52 ->
  (0 <= nearest64 x <= inject_Z B)%Q
  /\ (x - two_pow (E - 53) <= nearest64 x <= x + two_pow (E - 53))%Q.
Proof.
  intros [H0 HB] Hlt HE. unfold nearest64. rewrite Qred_correct.
  assert (He : exponent64 x <= E - 52).
  { pose proof (exponent64_le x E H0 ltac:(lra) ltac:(lia)). lia. }
  set (e := exponent64 x) in *.
  split; [split|].
  - pose proof (round_at_ge e 0 x) as H. rewrite Qmult_0_l in H. apply H. exact H0.
  - rewrite <- (int_on_grid B e) by lia. apply round_at_le.
    rewrite int_on_grid by lia. exact HB.
  - pose proof (round_at_err e x) as [H1 H2].
    pose proof (two_pow_le e (E - 52) He) as Hp.
    pose proof (two_pow_succ (E - 53)) as Hs. replace (E - 53 + 1) with (E - 52) in Hs by lia.
    split; lra.
Qed.

Lemma Qred_int (B : Z) : Qred (inject_Z B) = inject_Z B.
Proof.
  unfold Qred, inject_Z.
  pose proof (Z.ggcd_gcd B 1) as Hg. pose proof (Z.ggcd_correct_divisors B 1) as Hd.
  destruct (Z.ggcd B 1) as [g [aa bb]]. cbn [fst snd] in *.
  rewrite Z.gcd_1_r in Hg. subst g. destruct Hd as [Ha Hb].
  rewrite Z.mul_1_l in Ha, Hb. subst aa bb. reflexivity.
Qed.

(** The integers below [2 ^ 53] are doubles: rounding returns them. *)
Lemma nearest64_int (x : Q) (B : Z) :
  (x == inject_Z B)%Q -> 0 <= B < 2 ^ 53 -> nearest64 x = inject_Z B.
Proof.
  intros Hx HB. unfold nearest64.
  assert (H0 : (0 <= x)%Q).
  { rewrite Hx. change 0%Q with (inject_Z 0). rewrite <- Zle_Qle. lia. }
  assert (Hlt : (x < two_pow (52 + 1))%Q).
  { rewrite Hx, two_pow_int by lia. rewrite <- Zlt_Qlt. lia. }
  pose proof (exponent64_le x 52 H0 Hlt ltac:(lia)) as He.
  set (e := exponent64 x) in *.
  assert (He0 : e <= 0) by lia.
  assert (Hr : (round_at e x == inject_Z B)%Q).
  { apply Qle_antisym.
    - rewrite <- (int_on_grid B e He0). apply round_at_le.
      rewrite int_on_grid by lia. rewrite Hx. apply Qle_refl.
    - rewrite <- (int_on_grid B e He0) at 1. apply round_at_ge.
      rewrite int_on_grid by lia. rewrite Hx. apply Qle_refl. }
  rewrite (Qred_complete _ _ Hr). apply Qred_int.
Qed.

Lemma Qfloor_unique (y : Q) (k : Z) :
  (inject_Z k <= y)%Q -> (y < inject_Z (k + 1))%Q -> Qfloor y = k.
Proof.
  intros H1 H2.
  assert (k <= Qfloor y).
  { rewrite <- (Qfloor_Z k). apply Qfloor_resp_le. exact H1. }
  assert (Qfloor y < k + 1).
  { rewrite Zlt_Qlt. apply Qle_lt_trans with y; [apply Qfloor_le | exact H2]. }
  lia.
Qed.

Lemma floor_div64 (x : Q) (c j : Z) (p : positive) :
  (x == inject_Z c * two_pow j)%Q -> 0 <= c < 2 ^ 53 -> -1074 <= j <= 0 ->
  Qfloor (nearest64 (x / inject_Z (Zpos p))) = Qfloor (x / inject_Z (Zpos p)).
Proof.
  intros Hx Hc Hj.
  set (P := inject_Z (Zpos p)). assert (HP : (1 <= P)%Q).
  { unfold P. change 1%Q with (inject_Z 1). rewrite <- Zle_Qle. lia. }
  set (q := (x / P)%Q). assert (HqP : (q * P == x)%Q) by (unfold q; field; lra).
  pose proof (two_pow_pos j) as Hpj.
  assert (Hj1 : (two_pow j <= 1)%Q).
  { change 1%Q with (two_pow 0). apply two_pow_le. lia. }
  assert (Hc0 : (0 <= inject_Z c)%Q) by (change 0%Q with (inject_Z 0); rewrite <- Zle_Qle; lia).
  assert (Hc1 : (inject_Z c < inject_Z (2 ^ 53))%Q) by (rewrite <- Zlt_Qlt; lia).
  assert (Hx0 : (0 <= x)%Q) by (rewrite Hx; apply Qmult_le_0_compat; lra).
  assert (Hx1 : (x < two_pow (53 + j))%Q).
  { rewrite Hx, two_pow_add, (two_pow_int 53) by lia.
    apply Qmult_lt_r; [exact Hpj | exact Hc1]. }
  assert (Hq0 : (0 <= q)%Q).
  { unfold q. apply Qle_shift_div_l; lra. }
  assert (Hqx : (q <= x)%Q).
  { assert ((q * 1 <= q * P)%Q) by (rewrite !(Qmult_comm q); apply Qmult_le_compat_r; lra). lra. }
  symmetry. set (k := Qfloor q).
  assert (Hk0 : 0 <= k).
  { unfold k. change 0 with (Qfloor 0). apply Qfloor_resp_le. exact Hq0. }
  pose proof (Qfloor_le q) as Hk1. pose proof (Qlt_floor q) as Hk2. fold k in Hk1, Hk2.
  symmetry. apply Qfloor_unique.
  - (* lower bound: k lies on the grid *)
    unfold nearest64. rewrite Qred_correct.
    assert (He : exponent64 q <= 0).
    { assert (Hlt : (q < two_pow (52 + 1))%Q).
      { apply Qle_lt_trans with x; [exact Hqx|]. apply Qlt_le_trans with (two_pow (53 + j)); [exact Hx1|].
        apply two_pow_le. lia. }
      pose proof (exponent64_le q 52 Hq0 Hlt ltac:(lia)). lia. }
    rewrite <- (int_on_grid k (exponent64 q)) by exact He.
    apply round_at_ge. rewrite int_on_grid by exact He. exact Hk1.
  - (* upper bound: the quotient stays more than half a unit below k + 1 *)
    destruct (Z.eq_dec c 0) as [Hc00|Hcn].
    { (* x = 0 *)
      assert (Hxz : (x == 0)%Q) by (rewrite Hx, Hc00; ring).
      assert (Hqz : (0 <= q <= inject_Z 0)%Q) by (change (inject_Z 0) with 0%Q; split; lra).
      destruct (nearest64_bounds q 0 0 Hqz ltac:(reflexivity) ltac:(lia)) as [[_ Hb] _].
      change (inject_Z 0) with 0%Q in Hb.
      assert ((0 < inject_Z (k + 1))%Q); [|lra].
      change 0%Q with (inject_Z 0). rewrite <- Zlt_Qlt. lia. }
    assert (Hxpos : (0 < x)%Q).
    { rewrite Hx. apply Qmult_lt_0_compat; [|exact Hpj].
      change 0%Q with (inject_Z 0). rewrite <- Zlt_Qlt. lia. }
    assert (Hqpos : (0 < q)%Q).
    { unfold q. apply Qlt_shift_div_l; lra. }
    set (lp := Z.log2 (Zpos p)).
    destruct (Z.log2_spec (Zpos p) ltac:(lia)) as [Hp1 Hp2]. fold lp in Hp1, Hp2.
    assert (Hlp : 0 <= lp) by apply Z.log2_nonneg.
    assert (HP1 : (two_pow lp <= P)%Q).
    { rewrite two_pow_int by lia. unfold P. rewrite <- Zle_Qle. exact Hp1. }
    assert (HP2 : (P < 2 * two_pow lp)%Q).
    { rewrite <- two_pow_succ, two_pow_int by lia. unfold P. rewrite <- Zlt_Qlt.
      replace (lp + 1) with (Z.succ lp) by lia. exact Hp2. }
    pose proof (two_pow_pos lp) as Hplp.
    (* the gap between x and the next multiple of p *)
    assert (Hgap : (x + two_pow j <= inject_Z (k + 1) * P)%Q).
    { set (N := (k + 1) * Zpos p * 2 ^ (- j) - c).
      assert (HN : (inject_Z N * two_pow j == inject_Z (k + 1) * P - x)%Q).
      { unfold N. rewrite Hx. unfold Zminus. rewrite inject_Z_plus, inject_Z_opp, !inject_Z_mult.
        rewrite <- (two_pow_int (- j)) by lia. fold P.
        assert (Hone : (two_pow (- j) * two_pow j == 1)%Q).
        { rewrite <- two_pow_add. replace (- j + j) with 0 by lia. reflexivity. }
        transitivity (inject_Z (k + 1) * P * (two_pow (- j) * two_pow j) - inject_Z c * two_pow j)%Q;
          [ring | rewrite Hone; ring]. }
      assert (Hlt : (x < inject_Z (k + 1) * P)%Q).
      { rewrite <- HqP. apply Qmult_lt_r; lra. }
      assert (HNpos : 0 < N).
      { destruct (Z_lt_le_dec 0 N) as [|Hle]; [assumption|exfalso].
        assert ((inject_Z N <= 0)%Q) by (change 0%Q with (inject_Z 0); rewrite <- Zle_Qle; exact Hle).
        assert ((inject_Z N * two_pow j <= 0 * two_pow j)%Q) by (apply Qmult_le_compat_r; lra).
        lra. }
      assert ((1 * two_pow j <= inject_Z N * two_pow j)%Q).
      { apply Qmult_le_compat_r; [|lra]. change 1%Q with (inject_Z 1). rewrite <- Zle_Qle. lia. }
      lra. }
    (* the exponent of the quotient *)
    assert (Hqlt : (q < two_pow (52 + j - lp + 1))%Q).
    { replace (52 + j - lp + 1) with (53 + j + - lp) by lia. rewrite two_pow_add.
      assert (Hinv : (two_pow (- lp) * two_pow lp == 1)%Q).
      { rewrite <- two_pow_add. replace (- lp + lp) with 0 by lia. reflexivity. }
      pose proof (two_pow_pos (- lp)) as Hpm. pose proof (two_pow_pos (53 + j)) as Hp53.
      apply Qnot_le_lt. intros Hcontra.
      assert (H1 : (two_pow (53 + j) * two_pow (- lp) * P <= q * P)%Q)
        by (apply Qmult_le_compat_r; lra).
      assert (H2 : (two_pow (53 + j) * two_pow (- lp) * two_pow lp
                    <= two_pow (53 + j) * two_pow (- lp) * P)%Q).
      { rewrite !(Qmult_comm (two_pow (53 + j) * two_pow (- lp))).
        apply Qmult_le_compat_r; [exact HP1|].
        apply Qmult_le_0_compat; lra. }
      assert (H3 : (two_pow (53 + j) * two_pow (- lp) * two_pow lp == two_pow (53 + j))%Q).
      { rewrite <- Qmult_assoc, Hinv. ring. }
      lra. }
    unfold nearest64. rewrite Qred_correct.
    pose proof (round_at_err (exponent64 q) q) as [_ Herr].
    destruct (Z_le_gt_dec (-1074) (j - lp)) as [HA|HB].
    + (* the quotient is a normal number *)
      assert (He : exponent64 q <= j - lp).
      { destruct (Z_le_gt_dec 0 (52 + j - lp)) as [Hn|Hn].
        - pose proof (exponent64_le q (52 + j - lp) Hq0 Hqlt Hn). lia.
        - unfold exponent64. assert (Habs : (Qabs q == q)%Q) by (apply Qabs_pos; exact Hq0).
          assert (Qlog2 (Qabs q) <= 52 + j - lp); [|lia].
          apply Qlog2_le; rewrite Habs; assumption. }
      pose proof (two_pow_le _ _ He) as Hpe.
      set (M := two_pow (j - lp - 1)).
      assert (HM2 : (two_pow (j - lp) == 2 * M)%Q).
      { unfold M. rewrite <- two_pow_succ. replace (j - lp - 1 + 1) with (j - lp) by lia. reflexivity. }
      assert (HMP : (M * (2 * two_pow lp) == two_pow j)%Q).
      { transitivity (2 * M * two_pow lp)%Q; [ring|]. rewrite <- HM2, <- two_pow_add.
        replace (j - lp + lp) with j by lia. reflexivity. }
      assert (HMpos : (0 < M)%Q) by apply two_pow_pos.
      assert (HMlt : (M * P < M * (2 * two_pow lp))%Q) by (apply Qmult_lt_l; lra).
      assert (Hfin : ((q + M) * P < inject_Z (k + 1) * P)%Q) by lra.
      assert (Hq1 : (q + M < inject_Z (k + 1))%Q).
      { apply Qmult_lt_r with P; [lra | exact Hfin]. }
      lra.
    + (* the quotient underflows: it is tiny and so is the error *)
      assert (He : exponent64 q <= -1074).
      { unfold exponent64. assert (Habs : (Qabs q == q)%Q) by (apply Qabs_pos; exact Hq0).
        assert (Qlog2 (Qabs q) <= 52 + j - lp); [|lia].
        apply Qlog2_le; rewrite Habs; assumption. }
      pose proof (two_pow_le _ _ He) as Hpe.
      assert (Hsmall : (two_pow (52 + j - lp + 1) <= two_pow (-1))%Q) by (apply two_pow_le; lia).
      assert (Hsmall2 : (two_pow (-1074) <= two_pow (-1))%Q) by (apply two_pow_le; lia).
      change (two_pow (-1)) with (1 # 2)%Q in Hsmall, Hsmall2.
      assert ((1 <= inject_Z (k + 1))%Q).
      { change 1%Q with (inject_Z 1). rewrite <- Zle_Qle. lia. }
      lra.
Qed.

(** ** Rounding to a fixed number of decimals *)

Lemma toFixed_two_total (x : number) : exists s, toFixed x 2 = Normal s.
Proof.
  unfold toFixed. change ((2 <? 0) || (100 <? 2)) with false. cbv iota.
  destruct x as [| | |q]; try (eexists; reflexivity).
  destruct (Qle_bool _ _); eexists; reflexivity.
Qed.

Lemma toFixed_two (a : Z) (b : positive) :
  0 <= a -> a < 10 ^ 21 * Zpos b ->
  toFixed (Fin (a # b)) 2 = Normal (two_places (round_half_up (a * 100) (Zpos b))).
Proof.
  intros Ha Hb. unfold toFixed.
  change ((2 <? 0) || (100 <? 2)) with false. change (2 =? 0) with false. cbv iota.
  unfold Qsign_neg. cbn [Qnum].
  destruct (a <? 0) eqn:E; [apply Z.ltb_lt in E; lia|].
  assert (Hbig : Qle_bool (inject_Z (10 ^ 21)) (a # b) = false).
  { unfold Qle_bool. cbn [Qnum Qden inject_Z]. apply Z.leb_gt. lia. }
  rewrite Hbig.
  assert (Hn : Qfloor ((a # b) * inject_Z (10 ^ 2) + (1 # 2))
               = round_half_up (a * 100) (Zpos b)).
  { cbv [Qfloor Qplus Qmult inject_Z Qnum Qden round_half_up].
    change (10 ^ 2) with 100. rewrite Pos.mul_1_r, Pos2Z.inj_mul.
    f_equal; ring. }
  rewrite Hn. cbn [append]. f_equal.
  apply (place_point_two (round_half_up (a * 100) (Zpos b))).
  unfold round_half_up. apply Z.div_pos; lia.
Qed.

Lemma inject_Z_minus (a b : Z) : (inject_Z (a - b) == inject_Z a - inject_Z b)%Q.
Proof. unfold Z.sub. rewrite inject_Z_plus, inject_Z_opp. reflexivity. Qed.

Lemma round64_bounded (x : Q) (E B : Z) :
  (0 <= x <= inject_Z B)%Q -> (inject_Z B < two_pow (E + 1))%Q -> 0 <= E <= 52 ->
  round64 x = Fin (nearest64 x)
  /\ (0 <= nearest64 x <= inject_Z B)%Q
  /\ (x - two_pow (E - 53) <= nearest64 x <= x + two_pow (E - 53))%Q.
Proof.
  intros Hx HB HE.
  destruct (nearest64_bounds x E B Hx HB HE) as [[H0 H1] Herr].
  split; [|split; [split; assumption | exact Herr]].
  unfold round64.
  assert (Hsmall : Qle_bool (two_pow 1024) (Qabs (nearest64 x)) = false).
  { destruct (Qle_bool _ _) eqn:Eb; [exfalso|reflexivity].
    apply Qle_bool_iff in Eb. rewrite Qabs_pos in Eb by exact H0.
    assert (two_pow (E + 1) <= two_pow 1024)%Q by (apply two_pow_le; lia). lra. }
  rewrite Hsmall. reflexivity.
Qed.

(** The usage percentage in doubles: a value between 0 and 100, within
    [2 ^ -44] of the exact percentage. *)
Lemma usage_percent_double (total free : Z) :
  0 < total -> 0 <= free <= total ->
  exists w : Q,
    usage_percent free total = Fin w
    /\ (0 <= w <= 100)%Q
    /\ (inject_Z ((total - free) * 100) - two_pow (-44) * inject_Z total
        <= w * inject_Z total
        <= inject_Z ((total - free) * 100) + two_pow (-44) * inject_Z total)%Q.
Proof.
  intros HT HF. unfold usage_percent, of_int.
  assert (HTq : (0 < inject_Z total)%Q).
  { change 0%Q with (inject_Z 0). rewrite <- Zlt_Qlt. exact HT. }
  assert (HFq : (0 <= inject_Z free <= inject_Z total)%Q).
  { change 0%Q with (inject_Z 0). rewrite <- !Zle_Qle. exact HF. }
  assert (Hz : Qis_zero (inject_Z total) = false).
  { unfold Qis_zero. cbn [inject_Z Qnum]. apply Z.eqb_neq. lia. }
  cbn [num_div]. rewrite Hz. cbn [fl].
  set (q := (inject_Z free / inject_Z total)%Q).
  assert (HqT : (q * inject_Z total == inject_Z free)%Q) by (unfold q; field; lra).
  assert (Hq : (0 <= q <= inject_Z 1)%Q).
  { change (inject_Z 1) with 1%Q. unfold q. split.
    - apply Qle_shift_div_l; lra.
    - apply Qle_shift_div_r; lra. }
  destruct (round64_bounded q 0 1 Hq ltac:(reflexivity) ltac:(lia)) as (-> & Hy & Hyerr).
  set (y := nearest64 q) in *. cbn [fl num_sub].
  change (inject_Z 1) with 1%Q in *.
  assert (Hd : (0 <= 1 - y <= inject_Z 1)%Q) by (change (inject_Z 1) with 1%Q; lra).
  destruct (round64_bounded (1 - y) 0 1 Hd ltac:(reflexivity) ltac:(lia)) as (-> & Hz1 & Hzerr).
  set (z := nearest64 (1 - y)) in *. cbn [fl num_mul].
  change (inject_Z 1) with 1%Q in *. change (inject_Z 100) with 100%Q.
  assert (Hm : (0 <= z * 100 <= inject_Z 100)%Q) by (change (inject_Z 100) with 100%Q; lra).
  destruct (round64_bounded (z * 100) 6 100 Hm ltac:(reflexivity) ltac:(lia))
    as (-> & Hw & Hwerr).
  set (w := nearest64 (z * 100)) in *. change (inject_Z 100) with 100%Q in *.
  exists w. split; [reflexivity|]. split; [exact Hw|].
  change (0 - 53) with (-53) in *. change (6 - 53) with (-47) in *.
  assert (H53 : (two_pow (-44) == 512 * two_pow (-53))%Q) by reflexivity.
  assert (H47 : (two_pow (-47) == 64 * two_pow (-53))%Q) by reflexivity.
  pose proof (two_pow_pos (-53)) as Hp.
  set (u := two_pow (-53)) in *.
  rewrite inject_Z_mult, inject_Z_minus. change (inject_Z 100) with 100%Q.
  assert (Hw1 : ((z * 100 - 64 * u) * inject_Z total <= w * inject_Z total)%Q)
    by (apply Qmult_le_compat_r; lra).
  assert (Hw2 : (w * inject_Z total <= (z * 100 + 64 * u) * inject_Z total)%Q)
    by (apply Qmult_le_compat_r; lra).
  assert (Hz2 : ((1 - y - u) * inject_Z total <= z * inject_Z total)%Q)
    by (apply Qmult_le_compat_r; lra).
  assert (Hz3 : (z * inject_Z total <= (1 - y + u) * inject_Z total)%Q)
    by (apply Qmult_le_compat_r; lra).
  assert (Hy2 : ((q - u) * inject_Z total <= y * inject_Z total)%Q)
    by (apply Qmult_le_compat_r; lra).
  assert (Hy3 : (y * inject_Z total <= (q + u) * inject_Z total)%Q)
    by (apply Qmult_le_compat_r; lra).
  assert (HuT : (0 <= u * inject_Z total)%Q) by (apply Qmult_le_0_compat; lra).
  rewrite H53. clearbody q y z w u. clear Hz HFq HF HT.
  set (T := inject_Z total) in *. set (F := inject_Z free) in *. clearbody T F.
  split; lra.
Qed.

Lemma usage_percent_none_free (total : Z) :
  0 < total -> usage_percent 0 total = Fin (inject_Z 100).
Proof.
  intros HT. unfold usage_percent, of_int.
  assert (Hz : Qis_zero (inject_Z total) = false).
  { unfold Qis_zero. cbn [inject_Z Qnum]. apply Z.eqb_neq. lia. }
  cbn [num_div]. rewrite Hz. cbn [fl]. unfold round64.
  rewrite (nearest64_int (inject_Z 0 / inject_Z total) 0).
  - vm_compute. reflexivity.
  - unfold Qeq, Qdiv, Qmult, inject_Z. cbn [Qnum Qden]. lia.
  - lia.
Qed.

Lemma usage_percent_all_free (total : Z) :
  0 < total -> usage_percent total total = Fin (inject_Z 0).
Proof.
  intros HT. unfold usage_percent, of_int.
  assert (Hz : Qis_zero (inject_Z total) = false).
  { unfold Qis_zero. cbn [inject_Z Qnum]. apply Z.eqb_neq. lia. }
  assert (HTq : (0 < inject_Z total)%Q).
  { change 0%Q with (inject_Z 0). rewrite <- Zlt_Qlt. exact HT. }
  cbn [num_div]. rewrite Hz. cbn [fl]. unfold round64.
  rewrite (nearest64_int (inject_Z total / inject_Z total) 1).
  - vm_compute. reflexivity.
  - change (inject_Z 1) with 1%Q. field. lra.
  - lia.
Qed.

(** The usage text: the hundredths [n] nearest to the double, which is
    within [1/2 + 2 ^ -37] of a hundred times the exact percentage. *)
Lemma usage_fixed (total free : Z) :
  0 < total -> 0 <= free <= total ->
  exists n,
    toFixed (usage_percent free total) 2 = Normal (two_places n)
    /\ 0 <= n <= 10000
    /\ 2 ^ 38 * Z.abs (n * total - 10000 * (total - free)) <= (2 ^ 37 + 2) * total.
Proof.
  intros HT HF.
  destruct (usage_percent_double total free HT HF) as (w & -> & [Hw0 Hw1] & [He1 He2]).
  destruct w as [a b].
  assert (Ha0 : 0 <= a) by (unfold Qle in Hw0; cbn in Hw0; lia).
  assert (Ha1 : a <= 100 * Zpos b) by (unfold Qle in Hw1; cbn in Hw1; lia).
  rewrite toFixed_two by lia.
  set (n := round_half_up (a * 100) (Zpos b)).
  exists n. split; [reflexivity|].
  assert (Hn : 2 * Zpos b * n <= 2 * (a * 100) + Zpos b < 2 * Zpos b * (n + 1)).
  { unfold n, round_half_up. split.
    - apply Z.mul_div_le. lia.
    - apply Z.mul_succ_div_gt. lia. }
  assert (Hn0 : 0 <= n) by (unfold n, round_half_up; apply Z.div_pos; lia).
  assert (Hn1 : n <= 10000) by nia.
  split; [lia|].
  (* from the rationals back to the integers *)
  assert (HnQ : ((a # b) * 100 - (1 # 2) <= inject_Z n <= (a # b) * 100 + (1 # 2))%Q).
  { unfold Qle, Qminus, Qplus, Qopp, Qmult, inject_Z. cbn [Qnum Qden].
    rewrite ?Pos2Z.inj_mul. split; nia. }
  assert (HTq : (0 < inject_Z total)%Q).
  { change 0%Q with (inject_Z 0). rewrite <- Zlt_Qlt. exact HT. }
  set (D := n * total - 10000 * (total - free)).
  assert (HD : (inject_Z D == inject_Z n * inject_Z total
                              - 100 * inject_Z ((total - free) * 100))%Q).
  { unfold D. rewrite inject_Z_minus, !inject_Z_mult.
    change (inject_Z 10000) with 10000%Q. change (inject_Z 100) with 100%Q. ring. }
  assert (H44 : (two_pow (-44) == 1 # 17592186044416)%Q) by reflexivity.
  destruct HnQ as [Hq1 Hq2].
  assert (G1 : (((a # b) * 100 - (1 # 2)) * inject_Z total <= inject_Z n * inject_Z total)%Q)
    by (apply Qmult_le_compat_r; lra).
  assert (G2 : (inject_Z n * inject_Z total <= ((a # b) * 100 + (1 # 2)) * inject_Z total)%Q)
    by (apply Qmult_le_compat_r; lra).
  rewrite H44 in He1, He2.
  assert (Hlo : (- (inject_Z (2 ^ 37 + 2) * inject_Z total) <= inject_Z (2 ^ 38) * inject_Z D)%Q).
  { rewrite HD. change (inject_Z (2 ^ 37 + 2)) with (137438953474 # 1)%Q.
    change (inject_Z (2 ^ 38)) with (274877906944 # 1)%Q.
    clear HD Hn Hq1 Hq2. clearbody n.
    set (T := inject_Z total) in *. set (X := inject_Z ((total - free) * 100)) in *.
    set (N := inject_Z n) in *. set (w := (a # b)%Q) in *. clearbody T X N w. lra. }
  assert (Hhi : (inject_Z (2 ^ 38) * inject_Z D <= inject_Z (2 ^ 37 + 2) * inject_Z total)%Q).
  { rewrite HD. change (inject_Z (2 ^ 37 + 2)) with (137438953474 # 1)%Q.
    change (inject_Z (2 ^ 38)) with (274877906944 # 1)%Q.
    clear HD Hn Hq1 Hq2 Hlo. clearbody n.
    set (T := inject_Z total) in *. set (X := inject_Z ((total - free) * 100)) in *.
    set (N := inject_Z n) in *. set (w := (a # b)%Q) in *. clearbody T X N w. lra. }
  rewrite <- !inject_Z_mult, <- inject_Z_opp, <- Zle_Qle in Hlo.
  rewrite <- !inject_Z_mult, <- Zle_Qle in Hhi.
  lia.
Qed.

(** ** Floors of quotients and remainders *)

Lemma Qfloor_div_pos (x : Q) (p : positive) :
  Qfloor (x / inject_Z (Zpos p)) = Qfloor x / Zpos p.
Proof.
  destruct x as [a b]. cbv [Qfloor Qdiv Qinv Qmult inject_Z Qnum Qden].
  rewrite Z.mul_1_r, Pos2Z.inj_mul, Z.div_div by lia. reflexivity.
Qed.

Lemma Qfloor_js_rem (x : Q) (p : positive) :
  0 <= Qnum x -> Qfloor (js_rem x (inject_Z (Zpos p))) = Qfloor x mod Zpos p.
Proof.
  destruct x as [a b]. cbn [Qnum]. intros Ha.
  cbv [js_rem Qtrunc Qsign_neg Qdiv Qinv Qmult inject_Z Qnum Qden Qminus Qplus Qopp
       Qfloor Qceiling].
  change (1 * 1)%positive with 1%positive. rewrite !Z.mul_1_r, !Pos.mul_1_r.
  destruct (a <? 0) eqn:E; [apply Z.ltb_lt in E; lia|].
  rewrite Pos2Z.inj_mul, <- Z.div_div by lia.
  rewrite <- Z.mul_opp_l, Z.div_add by lia.
  rewrite (Z.mod_eq (a / Zpos b) (Zpos p)) by lia. ring.
Qed.

Lemma div_mod_parts (t : Z) :
  (t mod 86400) / 3600 = t / 3600 mod 24 /\ (t mod 3600) / 60 = t / 60 mod 60.
Proof.
  split.
  - change 86400 with (3600 * 24). rewrite Z.rem_mul_r by lia.
    rewrite Z.mul_comm, Z.div_add by lia.
    rewrite (Z.div_small (t mod 3600)) by (apply Z.mod_pos_bound; lia). lia.
  - change 3600 with (60 * 60). rewrite Z.rem_mul_r by lia.
    rewrite Z.mul_comm, Z.div_add by lia.
    rewrite (Z.div_small (t mod 60)) by (apply Z.mod_pos_bound; lia). lia.
Qed.

Lemma duration_parts_sound (t : Z) :
  0 <= t ->
  let '(d, h, m, s) := duration_parts t in
  t = d * 86400 + h * 3600 + m * 60 + s
  /\ 0 <= d /\ 0 <= h < 24 /\ 0 <= m < 60 /\ 0 <= s < 60.
Proof.
  intros Ht. unfold duration_parts.
  pose proof (Z.div_mod t 60 ltac:(lia)).
  pose proof (Z.div_mod (t / 60) 60 ltac:(lia)).
  pose proof (Z.div_mod (t / 3600) 24 ltac:(lia)).
  pose proof (Z.mod_pos_bound t 60 ltac:(lia)).
  pose proof (Z.mod_pos_bound (t / 60) 60 ltac:(lia)).
  pose proof (Z.mod_pos_bound (t / 3600) 24 ltac:(lia)).
  assert (t / 3600 = t / 60 / 60) by (rewrite Z.div_div by lia; reflexivity).
  assert (t / 86400 = t / 3600 / 24) by (rewrite Z.div_div by lia; reflexivity).
  assert (0 <= t / 86400) by (apply Z.div_pos; lia).
  lia.
Qed.

(** An integer below [2 ^ 53] prints as its decimal digits. *)
Lemma Number_toString_digits (z : Z) :
  0 <= z < 2 ^ 53 -> Number_toString (of_int z) = decimal z.
Proof.
  intros [H0 H1]. unfold Number_toString, of_int, is_integer.
  cbn [inject_Z Qnum Qden]. rewrite Z.mod_1_r, Qfloor_Z.
  change (0 =? 0) with true. cbn [andb].
  destruct (Z.abs z <? 2 ^ 53) eqn:E; [|apply Z.ltb_ge in E; lia].
  destruct (z <? 0) eqn:E2; [apply Z.ltb_lt in E2; lia | reflexivity].
Qed.

Lemma formatTime_spec (seconds : Q) :
  (0 <= seconds)%Q -> formatTime seconds = formatDuration_spec seconds.
Proof.
  intros Hs.
  assert (Hnum : 0 <= Qnum seconds).
  { unfold Qle in Hs. cbn [Qnum Qden] in Hs. lia. }
  unfold formatTime, formatDuration_spec, duration_parts, Math_floor.
  change (3600 * 24) with 86400.
  change (inject_Z 86400) with (inject_Z (Zpos 86400)).
  change (inject_Z 3600) with (inject_Z (Zpos 3600)).
  change (inject_Z 60) with (inject_Z (Zpos 60)).
  rewrite !Qfloor_div_pos, !Qfloor_js_rem by exact Hnum.
  destruct (div_mod_parts (Qfloor seconds)) as [-> ->]. reflexivity.
Qed.

(** *** The decomposition in doubles *)

Lemma scaled_int_le (a b j : Z) :
  (inject_Z a * two_pow j <= inject_Z b * two_pow j)%Q -> a <= b.
Proof.
  intros H. apply Qmult_le_r in H; [|apply two_pow_pos]. rewrite Zle_Qle. exact H.
Qed.

Lemma scaled_int_lt (a b j : Z) :
  (inject_Z a * two_pow j < inject_Z b * two_pow j)%Q -> a < b.
Proof.
  intros H. apply Qmult_lt_r in H; [|apply two_pow_pos]. rewrite Zlt_Qlt. exact H.
Qed.

(** A non-negative double below [2 ^ 53] is [c * 2 ^ j] for a significand
    [c] below [2 ^ 53] and an exponent [j] between -1074 and 0. *)
Lemma double_dyadic (s : Q) :
  is_double s = true -> (0 <= s)%Q -> (s < inject_Z (2 ^ 53))%Q ->
  exists c j, (s == inject_Z c * two_pow j)%Q /\ 0 <= c < 2 ^ 53 /\ -1074 <= j <= 0.
Proof.
  intros Hd H0 H1. unfold is_double in Hd. apply andb_true_iff in Hd as [Hd _].
  apply Qeq_bool_iff in Hd. unfold nearest64 in Hd. rewrite Qred_correct in Hd.
  unfold round_at in Hd.
  assert (H53 : (s < two_pow (52 + 1))%Q) by (rewrite two_pow_int by lia; exact H1).
  pose proof (exponent64_le s 52 H0 H53 ltac:(lia)) as He.
  assert (Hlow : -1074 <= exponent64 s) by (unfold exponent64; lia).
  assert (Hexp : 0 < Qnum s -> (s < two_pow (exponent64 s + 53))%Q).
  { intros Hn. assert (Hpos : (0 < s)%Q) by (unfold Qlt; cbn; lia).
    assert (Habs : (Qabs s == s)%Q) by (apply Qabs_pos; exact H0).
    assert (Hpa : (0 < Qabs s)%Q) by (rewrite Habs; exact Hpos).
    destruct (Qlog2_spec (Qabs s) Hpa) as [_ Hl].
    apply Qle_lt_trans with (Qabs s); [apply Qle_Qabs|].
    apply Qlt_le_trans with (1 := Hl). apply two_pow_le. unfold exponent64. lia. }
  set (e := exponent64 s) in *. set (k := Qround_even (s / two_pow e)) in *.
  exists k, e. split; [symmetry; exact Hd|]. split; [|lia].
  pose proof (two_pow_pos e) as Hpe.
  split.
  - apply (scaled_int_le 0 k e). rewrite Hd. change (inject_Z 0) with 0%Q. lra.
  - destruct (Z_lt_le_dec 0 (Qnum s)) as [Hn|Hn].
    + apply (scaled_int_lt k (2 ^ 53) e). rewrite Hd.
      rewrite <- two_pow_int by lia. rewrite <- two_pow_add.
      replace (53 + e) with (e + 53) by lia. exact (Hexp Hn).
    + assert (Hs0 : (s == 0)%Q).
      { unfold Qle in H0. unfold Qeq. cbn in *. lia. }
      assert (k <= 0); [|lia].
      apply (scaled_int_le k 0 e). rewrite Hd, Hs0. change (inject_Z 0) with 0%Q. lra.
Qed.

(** The remainder of such a double by a positive integer is one as well,
    with the same exponent. *)
Lemma js_rem_dyadic (s : Q) (c j : Z) (p : positive) :
  (s == inject_Z c * two_pow j)%Q -> 0 <= c < 2 ^ 53 -> -1074 <= j <= 0 ->
  exists c', (js_rem s (inject_Z (Zpos p)) == inject_Z c' * two_pow j)%Q /\ 0 <= c' < 2 ^ 53.
Proof.
  intros Hs Hc Hj. pose proof (two_pow_pos j) as Hpj.
  assert (Hc0 : (0 <= inject_Z c)%Q) by (change 0%Q with (inject_Z 0); rewrite <- Zle_Qle; lia).
  assert (Hs0 : (0 <= s)%Q) by (rewrite Hs; apply Qmult_le_0_compat; lra).
  set (P := inject_Z (Zpos p)). assert (HP : (0 < P)%Q) by reflexivity.
  assert (Hq0 : (0 <= s / P)%Q) by (apply Qle_shift_div_l; lra).
  assert (Htr : Qtrunc (s / P) = Qfloor (s / P)).
  { unfold Qtrunc, Qsign_neg. destruct (Qnum (s / P) <? 0) eqn:E; [|reflexivity].
    apply Z.ltb_lt in E. unfold Qle in Hq0. cbn [Qnum Qden] in Hq0. lia. }
  unfold js_rem. fold P. rewrite Htr. set (t := Qfloor (s / P)).
  assert (Ht0 : 0 <= t).
  { unfold t. change 0 with (Qfloor 0). apply Qfloor_resp_le. exact Hq0. }
  assert (Ht1 : (P * inject_Z t <= s)%Q).
  { pose proof (Qfloor_le (s / P)) as Hf. fold t in Hf.
    assert (Hm : (inject_Z t * P <= s / P * P)%Q) by (apply Qmult_le_compat_r; lra).
    assert (Hsp : (s / P * P == s)%Q) by (field; lra). lra. }
  assert (Ht2 : (0 <= P * inject_Z t)%Q).
  { apply Qmult_le_0_compat; [lra|].
    change 0%Q with (inject_Z 0). rewrite <- Zle_Qle. exact Ht0. }
  set (c' := c - Zpos p * t * 2 ^ (- j)).
  assert (Hc' : (s - P * inject_Z t == inject_Z c' * two_pow j)%Q).
  { unfold c'. rewrite Hs. unfold Z.sub.
    rewrite inject_Z_plus, inject_Z_opp, !inject_Z_mult.
    rewrite <- (two_pow_int (- j)) by lia. fold P.
    assert (Hone : (two_pow (- j) * two_pow j == 1)%Q).
    { rewrite <- two_pow_add. replace (- j + j) with 0 by lia. reflexivity. }
    transitivity (inject_Z c * two_pow j - P * inject_Z t * (two_pow (- j) * two_pow j))%Q;
      [rewrite Hone; ring | ring]. }
  exists c'. split; [exact Hc'|]. split.
  - apply (scaled_int_le 0 c' j). rewrite <- Hc'. change (inject_Z 0) with 0%Q. lra.
  - assert (c' <= c); [|lia].
    apply (scaled_int_le c' c j). rewrite <- Hc', <- Hs. lra.
Qed.

(** On such a double the rounded quotients have the floors of the exact
    ones, so the four numbers are those of the floor division. *)
Lemma formatTime_parts_exact (s : Q) (c j : Z) :
  (s == inject_Z c * two_pow j)%Q -> 0 <= c < 2 ^ 53 -> -1074 <= j <= 0 ->
  formatTime_parts s = duration_parts (Qfloor s).
Proof.
  intros Hs Hc Hj.
  assert (Hs0 : (0 <= s)%Q).
  { rewrite Hs. apply Qmult_le_0_compat; [|apply Qlt_le_weak, two_pow_pos].
    change 0%Q with (inject_Z 0). rewrite <- Zle_Qle. lia. }
  assert (Hnum : 0 <= Qnum s) by (unfold Qle in Hs0; cbn [Qnum Qden] in Hs0; lia).
  unfold formatTime_parts, div64, duration_parts, Math_floor.
  change (3600 * 24) with 86400.
  change (inject_Z 86400) with (inject_Z (Zpos 86400)).
  change (inject_Z 3600) with (inject_Z (Zpos 3600)).
  change (inject_Z 60) with (inject_Z (Zpos 60)).
  destruct (js_rem_dyadic s c j 86400 Hs Hc Hj) as (c1 & Hr1 & Hc1).
  destruct (js_rem_dyadic s c j 3600 Hs Hc Hj) as (c2 & Hr2 & Hc2).
  rewrite (floor_div64 s c j 86400 Hs Hc Hj).
  rewrite (floor_div64 _ c1 j 3600 Hr1 Hc1 Hj).
  rewrite (floor_div64 _ c2 j 60 Hr2 Hc2 Hj).
  rewrite !Qfloor_div_pos, !Qfloor_js_rem by exact Hnum.
  destruct (div_mod_parts (Qfloor s)) as [-> ->]. reflexivity.
Qed.

Lemma formatTime_double_spec (seconds : Q) :
  is_double seconds = true -> (0 <= seconds)%Q -> (seconds < inject_Z (2 ^ 53))%Q ->
  formatTime_double seconds = formatDuration_spec seconds.
Proof.
  intros Hd H0 H1. destruct (double_dyadic seconds Hd H0 H1) as (c & j & Hs & Hc & Hj).
  unfold formatTime_double, formatDuration_spec.
  rewrite (formatTime_parts_exact seconds c j Hs Hc Hj). reflexivity.
Qed.

(** Below [2 ^ 53] the code's doubles and exact arithmetic print the same. *)
Lemma formatTime_double_exact (seconds : Q) :
  is_double seconds = true -> (0 <= seconds)%Q -> (seconds < inject_Z (2 ^ 53))%Q ->
  formatTime_double seconds = formatTime seconds.
Proof.
  intros Hd H0 H1. rewrite formatTime_double_spec, formatTime_spec by assumption.
  reflexivity.
Qed.

(** ** The byte formatter *)

Lemma log2_div_lt (k n : Z) : 2 <= k -> k <= n -> Z.log2 (n / k) < Z.log2 n.
Proof.
  intros Hk Hn.
  assert (H1 : 0 < n / k) by (apply Z.div_str_pos; lia).
  assert (H2 : 2 * (n / k) <= n).
  { pose proof (Z.mul_div_le n k ltac:(lia)). nia. }
  apply Z.log2_le_mono in H2. rewrite Z.log2_double in H2 by lia. lia.
Qed.

Lemma ilog_spec (fuel : nat) :
  forall k b, 2 <= k -> 1 <= b -> Z.log2 b < Z.of_nat fuel ->
    0 <= ilog fuel k b /\ k ^ ilog fuel k b <= b < k ^ (ilog fuel k b + 1).
Proof.
  induction fuel as [|fuel IH]; intros k b Hk Hb Hf.
  - pose proof (Z.log2_nonneg b). lia.
  - cbn [ilog]. destruct (b <? k) eqn:E.
    + apply Z.ltb_lt in E. rewrite Z.pow_0_r, Z.pow_1_r. lia.
    + apply Z.ltb_ge in E.
      pose proof (log2_div_lt k b Hk E) as Hlog.
      assert (Hq : 1 <= b / k) by (apply Z.div_le_lower_bound; lia).
      destruct (IH k (b / k) Hk Hq ltac:(lia)) as [H0 [Hlo Hhi]].
      set (i := ilog fuel k (b / k)) in *.
      pose proof (Z.mul_div_le b k ltac:(lia)) as Hle.
      pose proof (Z.mod_pos_bound b k ltac:(lia)) as Hmod.
      pose proof (Z.div_mod b k ltac:(lia)) as Hdm.
      assert (Hp1 : k ^ (1 + i) = k * k ^ i).
      { rewrite Z.pow_add_r, Z.pow_1_r by lia. reflexivity. }
      assert (Hp2 : k ^ (1 + i + 1) = k * k ^ (i + 1)).
      { rewrite <- Z.add_assoc, Z.pow_add_r, Z.pow_1_r by lia. reflexivity. }
      rewrite Hp1, Hp2. nia.
Qed.

(** The index is the floor of the quotient of the two real logarithms. *)
Lemma ln_pow_Z (k i : Z) :
  2 <= k -> 0 <= i -> ln (IZR (k ^ i)) = (IZR i * ln (IZR k))%R.
Proof.
  intros Hk Hi. rewrite <- (Z2Nat.id i Hi) at 1. rewrite <- pow_IZR.
  rewrite ln_pow by (apply IZR_lt; lia).
  rewrite INR_IZR_INZ, Z2Nat.id by exact Hi. reflexivity.
Qed.

Lemma real_log_floor (k b i : Z) :
  2 <= k -> 1 <= b -> 0 <= i -> k ^ i <= b < k ^ (i + 1) ->
  Zfloor (ln (IZR b) / ln (IZR k)) = i.
Proof.
  intros Hk Hb Hi [Hlo Hhi].
  assert (Hlnk : (0 < ln (IZR k))%R).
  { rewrite <- ln_1. apply ln_increasing; [lra | apply IZR_lt; lia]. }
  assert (Hpos : 0 < k ^ i) by (apply Z.pow_pos_nonneg; lia).
  assert (H1 : (IZR i * ln (IZR k) <= ln (IZR b))%R).
  { rewrite <- ln_pow_Z by lia.
    destruct (Z.eq_dec (k ^ i) b) as [->|Hne]; [lra|].
    left. apply ln_increasing; apply IZR_lt; lia. }
  assert (H2 : (ln (IZR b) < (IZR i + 1) * ln (IZR k))%R).
  { rewrite <- plus_IZR, <- ln_pow_Z by lia.
    apply ln_increasing; apply IZR_lt; lia. }
  apply Zfloor_eq. split.
  - apply Rmult_le_reg_r with (ln (IZR k)); [exact Hlnk|].
    unfold Rdiv. rewrite Rmult_assoc, Rinv_l by lra. lra.
  - apply Rmult_lt_reg_r with (ln (IZR k)); [exact Hlnk|].
    unfold Rdiv. rewrite Rmult_assoc, Rinv_l by lra. lra.
Qed.

Lemma log_floor_real (bytes : Z) :
  1 <= bytes ->
  log_floor bytes 1024 = of_int (Zfloor (ln (IZR bytes) / ln (IZR 1024))).
Proof.
  intros Hb. unfold log_floor.
  destruct (bytes <? 0) eqn:E1; [apply Z.ltb_lt in E1; lia|].
  destruct (bytes =? 0) eqn:E0; [apply Z.eqb_eq in E0; lia|].
  destruct (ilog_spec (S (Z.to_nat (Z.log2 bytes))) 1024 bytes ltac:(lia) Hb)
    as [H0 H1].
  { pose proof (Z.log2_nonneg bytes). lia. }
  rewrite (real_log_floor 1024 bytes _ ltac:(lia) Hb H0 H1). reflexivity.
Qed.

Lemma formatBytes_total (bytes : Z) :
  exists s, formatBytes bytes default_decimal = Normal s.
Proof.
  unfold formatBytes, default_decimal.
  destruct (bytes =? 0); [eexists; reflexivity|].
  destruct (toFixed_two_total
              (parseFloat (num_div (of_int bytes) (Math_pow 1024 (log_floor bytes 1024)))))
    as [s Hs].
  rewrite Hs. eexists. reflexivity.
Qed.

(** Below [1024 ^ 5] the formatter picks the largest unit that keeps the
    scaled value at or above 1, and prints that value with two decimals. *)
Lemma formatBytes_below_petabyte (bytes : Z) :
  1 <= bytes < 1024 ^ 5 ->
  exists i unit,
    0 <= i <= 4
    /\ 1024 ^ i <= bytes < 1024 ^ (i + 1)
    /\ nth_error sizes (Z.to_nat i) = Some unit
    /\ formatBytes bytes default_decimal
       = Normal (two_places (round_half_up (bytes * 100) (1024 ^ i)) ++ " " ++ unit).
Proof.
  intros [Hlo Hhi].
  set (i := ilog (S (Z.to_nat (Z.log2 bytes))) 1024 bytes).
  destruct (ilog_spec (S (Z.to_nat (Z.log2 bytes))) 1024 bytes ltac:(lia) Hlo) as [H0 [H1 H2]].
  { pose proof (Z.log2_nonneg bytes). lia. }
  fold i in H0, H1, H2.
  assert (Hi : i <= 4).
  { destruct (Z_le_gt_dec i 4) as [|Hgt]; [assumption|exfalso].
    assert (1024 ^ 5 <= 1024 ^ i) by (apply Z.pow_le_mono_r; lia). lia. }
  assert (Hunit : exists unit, nth_error sizes (Z.to_nat i) = Some unit).
  { assert (Hc : i = 0 \/ i = 1 \/ i = 2 \/ i = 3 \/ i = 4) by lia.
    destruct Hc as [->|[->|[->|[->| ->]]]]; eexists; reflexivity. }
  destruct Hunit as [unit Hunit].
  exists i, unit. repeat split; try assumption.
  unfold formatBytes, default_decimal, log_floor.
  destruct (bytes =? 0) eqn:E0; [apply Z.eqb_eq in E0; lia|].
  destruct (bytes <? 0) eqn:E1; [apply Z.ltb_lt in E1; lia|].
  fold i. unfold parseFloat, Math_pow, of_int, element_at.
  rewrite Qfloor_Z.
  destruct (i <? 0) eqn:E2; [apply Z.ltb_lt in E2; lia|].
  assert (Hint : is_integer (inject_Z i) = true).
  { unfold is_integer. cbn [inject_Z Qnum Qden]. rewrite Z.mod_1_r. reflexivity. }
  rewrite Hint. destruct (0 <=? i) eqn:E3; [|apply Z.leb_gt in E3; lia].
  cbn [andb]. rewrite Hunit.
  assert (Hpow : 0 < 1024 ^ i) by (apply Z.pow_pos_nonneg; lia).
  destruct (1024 ^ i) as [|pw|pw] eqn:Epw; try lia.
  assert (Hq : num_div (Fin (inject_Z bytes)) (Fin (inject_Z (Zpos pw)))
               = Fin (bytes # pw)).
  { cbv [num_div Qis_zero inject_Z Qnum Z.eqb Qdiv Qinv Qmult Qden].
    rewrite Z.mul_1_r, Pos.mul_1_l. reflexivity. }
  rewrite Hq, toFixed_two; [reflexivity | lia |].
  replace (Z.succ i) with (i + 1) in * by lia.
  rewrite Z.pow_add_r, Epw in H2 by lia. lia.
Qed.

(** C2: at 2 PiB, a well-formed non-negative integer byte count, the
    formatter returns normally but the unit it prints is not one of Bytes,
    KB, MB, GB, TB: the index 5 is outside the unit table. *)
Theorem formatBytes_unit_outside_table :
  formatBytes (2 ^ 51) default_decimal = Normal "2.00 undefined"
  /\ log_floor (2 ^ 51) 1024 = of_int 5
  /\ element_at sizes (of_int 5) = None.
Proof. repeat split; vm_compute; reflexivity. Qed.

(** C3: [formatBytes (0)] is "0 Bytes" (the zero special case, whatever the
    precision), [formatBytes (1024)] is "1.00 KB", [formatBytes (1536, 1)] is
    "1.5 KB" and [formatBytes (1073741824)] is "1.00 GB". *)
Theorem formatBytes_values :
  (forall decimal, formatBytes 0 decimal = Normal "0 Bytes")
  /\ formatBytes 1024 default_decimal = Normal "1.00 KB"
  /\ formatBytes 1536 1 = Normal "1.5 KB"
  /\ formatBytes 1073741824 default_decimal = Normal "1.00 GB".
Proof.
  split; [intros decimal; reflexivity|].
  repeat split; vm_compute; reflexivity.
Qed.

(** ** Collectors *)

Lemma getMemoryInfo_shape (h : Host) :
  exists total free fixed,
    formatBytes (os_totalmem h) default_decimal = Normal total
    /\ formatBytes (os_freemem h) default_decimal = Normal free
    /\ toFixed (usage_percent (os_freemem h) (os_totalmem h)) 2 = Normal fixed
    /\ getMemoryInfo h
       = Normal (VObj [("total", VStr total); ("free", VStr free);
                       ("usage", VStr (fixed ++ "%"))]).
Proof.
  destruct (formatBytes_total (os_totalmem h)) as [total Ht].
  destruct (formatBytes_total (os_freemem h)) as [free Hf].
  destruct (toFixed_two_total (usage_percent (os_freemem h) (os_totalmem h))) as [fixed Hu].
  exists total, free, fixed. repeat split; try assumption.
  unfold getMemoryInfo. rewrite Ht, Hf, Hu. reflexivity.
Qed.

Lemma getCpuInfo_object (h : Host) :
  os_cpus h <> [] -> exists cpu, getCpuInfo h = Normal (VObj cpu).
Proof.
  intros Hc. unfold getCpuInfo. destruct (os_cpus h) as [|c rest]; [congruence|].
  cbn [map first member]. destruct (lookup c "model"); eexists; reflexivity.
Qed.

Lemma getProcessInfo_shape (h : Host) :
  exists pid title version uptime usage,
    getProcessInfo h
    = Normal (VObj [("pid", pid); ("title", title); ("nodeVersion", version);
                    ("uptime", uptime); ("memoryUsage", usage);
                    ("env", VObj [("NODE_ENV",
                                   VStr (or_else (getenv (process_env h) "NODE_ENV")
                                           "Not set"))])]).
Proof.
  unfold getProcessInfo.
  destruct (formatBytes_total (rss (process_memoryUsage h))) as [s1 ->].
  destruct (formatBytes_total (heapTotal (process_memoryUsage h))) as [s2 ->].
  destruct (formatBytes_total (heapUsed (process_memoryUsage h))) as [s3 ->].
  destruct (formatBytes_total (external (process_memoryUsage h))) as [s4 ->].
  do 5 eexists. reflexivity.
Qed.

Lemma collect_objects (h : Host) :
  os_cpus h <> [] ->
  exists cpu memory os user process network,
    collect h
    = Normal [("cpu", VObj cpu); ("memory", VObj memory); ("os", VObj os);
              ("user", VObj user); ("process", VObj process);
              ("network", VObj network)].
Proof.
  intros Hc. unfold collect.
  destruct (getCpuInfo_object h Hc) as [cpu ->].
  destruct (getMemoryInfo_shape h) as (t & f & u & _ & _ & _ & ->).
  destruct (getProcessInfo_shape h) as (a & b & c & d & e & ->).
  do 6 eexists. reflexivity.
Qed.

Lemma collect_each (h : Host) :
  os_cpus h <> [] ->
  exists cpu memory os user process network,
    getCpuInfo h = Normal (VObj cpu)
    /\ getMemoryInfo h = Normal (VObj memory)
    /\ getOsInfo h = Normal (VObj os)
    /\ getUserInfo h = Normal (VObj user)
    /\ getProcessInfo h = Normal (VObj process)
    /\ getNetworkInfo h = Normal (VObj network)
    /\ collect h
       = Normal [("cpu", VObj cpu); ("memory", VObj memory); ("os", VObj os);
                 ("user", VObj user); ("process", VObj process);
                 ("network", VObj network)].
Proof.
  intros Hc. unfold collect.
  destruct (getCpuInfo_object h Hc) as [cpu ->].
  destruct (getMemoryInfo_shape h) as (t & f & u & _ & _ & _ & ->).
  destruct (getProcessInfo_shape h) as (a & b & c & d & e & ->).
  do 6 eexists. repeat split.
Qed.

(** ** Geolocation client *)

Lemma getGeolocation_object (geo : axios_outcome) :
  exists g, getGeolocation geo = Normal (VObj g).
Proof.
  unfold getGeolocation. destruct geo as [resp|e]; [|eexists; reflexivity].
  cbn [bind]. destruct (destructure (data resp)) as [[[[c r] k] l]|e];
    [|eexists; reflexivity].
  cbn [bind]. destruct (ToString c); [|eexists; reflexivity].
  cbn [bind]. destruct (ToString r); [|eexists; reflexivity].
  cbn [bind]. destruct (ToString k); eexists; reflexivity.
Qed.

Lemma getGeolocation_caught (geo : axios_outcome) :
  caught geo -> getGeolocation geo = Normal sentinel.
Proof. intros [e|st|st]; reflexivity. Qed.

(** ** Serialisation *)

Lemma serialize_object (gap indent : string) (props : object) :
  SerializeJSONProperty gap indent (VObj props)
  = Some (wrap "{" "}" gap indent (indent ++ gap)
            (object_members gap (indent ++ gap) props)).
Proof.
  cbn [SerializeJSONProperty]. do 2 f_equal.
  induction props as [|[k x] rest IH]; [reflexivity|].
  unfold object_members. cbn [flat_map fst snd]. fold (object_members gap (indent ++ gap) rest).
  rewrite <- IH. destruct (SerializeJSONProperty gap (indent ++ gap) x); reflexivity.
Qed.

Lemma stringify_snapshot (cpu memory os user process network geolocation : object) :
  exists t1 t2 t3 t4 t5 t6 t7,
    SerializeJSONProperty "  " "  " (VObj cpu) = Some t1
    /\ SerializeJSONProperty "  " "  " (VObj memory) = Some t2
    /\ SerializeJSONProperty "  " "  " (VObj os) = Some t3
    /\ SerializeJSONProperty "  " "  " (VObj user) = Some t4
    /\ SerializeJSONProperty "  " "  " (VObj process) = Some t5
    /\ SerializeJSONProperty "  " "  " (VObj network) = Some t6
    /\ SerializeJSONProperty "  " "  " (VObj geolocation) = Some t7
    /\ JSON_stringify_2
         (VObj [("cpu", VObj cpu); ("memory", VObj memory); ("os", VObj os);
                ("user", VObj user); ("process", VObj process);
                ("network", VObj network); ("geolocation", VObj geolocation)])
       = Some (pretty_object
                 [("cpu", t1); ("memory", t2); ("os", t3); ("user", t4);
                  ("process", t5); ("network", t6); ("geolocation", t7)]).
Proof.
  do 7 eexists. repeat split.
Qed.

(** ** Request router *)

Lemma handler_api (h : Host) (geo : axios_outcome) (req : request) (g : object) :
  os_cpus h <> [] ->
  url_parse_pathname (url req) = Some "/api" ->
  getGeolocation geo = Normal (VObj g) ->
  exists t1 t2 t3 t4 t5 t6 t7,
    SerializeJSONProperty "  " "  " (VObj g) = Some t7
    /\ handler h geo req
       = Normal {| statusCode := 200;
                   headers := [("Content-Type", "application/json")];
                   body := Some (pretty_object
                                   [("cpu", t1); ("memory", t2); ("os", t3);
                                    ("user", t4); ("process", t5); ("network", t6);
                                    ("geolocation", t7)]) |}.
Proof.
  intros Hc Hp Hg. unfold handler. rewrite Hp, Hg.
  destruct (collect_objects h Hc) as (cpu & memory & os & user & process & network & Hcol).
  rewrite Hcol.
  destruct (stringify_snapshot cpu memory os user process network g)
    as (t1 & t2 & t3 & t4 & t5 & t6 & t7 & _ & _ & _ & _ & _ & _ & H7 & Hs).
  exists t1, t2, t3, t4, t5, t6, t7. split; [exact H7|].
  cbn [pathname_is bind app]. change (String.eqb "/api" "/") with false.
  change (String.eqb "/api" "/api") with true. cbv iota.
  rewrite Hs. reflexivity.
Qed.

(** * The claims *)

(** C1 (as amended): when the outbound call is rejected (network error,
    non-2xx status, a timeout that the transport reports) or its body is
    [null] or [undefined],
    [getGeolocation] returns exactly the sentinel, and on a host that reports
    at least one CPU the [/api] response still has status 200 and carries the
    sentinel as its [geolocation] member; nothing is thrown. *)
Theorem geolocation_failure_isolated
  (geo : axios_outcome) (h : Host) (req : request) :
  caught geo ->
  os_cpus h <> [] ->
  url_parse_pathname (url req) = Some "/api" ->
  getGeolocation geo = Normal sentinel
  /\ exists t1 t2 t3 t4 t5 t6,
       handler h geo req
       = Normal {| statusCode := 200;
                   headers := [("Content-Type", "application/json")];
                   body := Some (pretty_object
                                   [("cpu", t1); ("memory", t2); ("os", t3);
                                    ("user", t4); ("process", t5); ("network", t6);
                                    ("geolocation", sentinel_text)]) |}.
Proof.
  intros Hgeo Hc Hp. pose proof (getGeolocation_caught geo Hgeo) as Hs.
  split; [exact Hs|].
  destruct (handler_api h geo req _ Hc Hp Hs)
    as (t1 & t2 & t3 & t4 & t5 & t6 & t7 & H7 & Hh).
  exists t1, t2, t3, t4, t5, t6. rewrite Hh.
  vm_compute in H7. injection H7 as <-. reflexivity.
Qed.

(** C4 (as amended): the memory snapshot has exactly the three fields
    [total], [free] and [usage], all of them strings; [total] and [free] are
    the host's total and free byte counts rendered by the byte formatter with
    its default precision.  The integer counts are not fields of it. *)
Theorem getMemoryInfo_fields (h : Host) :
  exists total free usage,
    getMemoryInfo h
    = Normal (VObj [("total", VStr total); ("free", VStr free); ("usage", VStr usage)])
    /\ formatBytes (os_totalmem h) default_decimal = Normal total
    /\ formatBytes (os_freemem h) default_decimal = Normal free.
Proof.
  destruct (getMemoryInfo_shape h) as (total & free & fixed & Ht & Hf & _ & Hm).
  exists total, free, (fixed ++ "%"). auto.
Qed.

(** C5 (as amended): for total memory [T > 0] and free memory [F] between 0
    and [T], the [usage] field is a count [n] of hundredths between 0 and
    10000, written with exactly two decimals and followed by a percent sign.
    The three operations of [(1 - F / T) * 100] each round to the nearest
    double, so [n / 100] is within [0.005 + 2 ^ -38 / 50] of the exact
    percentage: [n] is the exact percentage rounded to hundredths, or a
    neighbour of it.  For [T = 1000] and [F = 250] the text is "75.00%". *)
Theorem getMemoryInfo_usage (h : Host) :
  0 < os_totalmem h ->
  0 <= os_freemem h <= os_totalmem h ->
  (exists n,
     (m <- getMemoryInfo h ;; member m "usage") = Normal (VStr (two_places n ++ "%"))
     /\ 0 <= n <= 10000
     /\ 2 ^ 38 * Z.abs (n * os_totalmem h - 10000 * (os_totalmem h - os_freemem h))
        <= (2 ^ 37 + 2) * os_totalmem h
     /\ Z.abs (n - round_half_up ((os_totalmem h - os_freemem h) * 10000) (os_totalmem h))
        <= 1)
  /\ (m <- getMemoryInfo (sample_host 1000 250 []) ;; member m "usage")
     = Normal (VStr "75.00%").
Proof.
  intros HT HF. split; [|vm_compute; reflexivity].
  destruct (getMemoryInfo_shape h) as (total & free & fixed & _ & _ & Hu & ->).
  destruct (usage_fixed _ _ HT HF) as (n & Hn & Hr & Hb).
  rewrite Hn in Hu. injection Hu as <-.
  exists n. split; [reflexivity|]. split; [exact Hr|]. split; [exact Hb|].
  set (T := os_totalmem h) in *. set (F := os_freemem h) in *.
  set (R := round_half_up ((T - F) * 10000) T).
  assert (HR : 2 * T * R <= 2 * ((T - F) * 10000) + T < 2 * T * (R + 1)).
  { unfold R, round_half_up. split.
    - apply Z.mul_div_le. lia.
    - apply Z.mul_succ_div_gt. lia. }
  clearbody R T F. change (2 ^ 38) with 274877906944 in Hb.
  change (2 ^ 37 + 2) with 137438953474 in Hb. nia.
Qed.

(** C6 (as amended): for every non-negative double below [2 ^ 53] seconds,
    [formatTime] prints the days, hours, minutes and seconds obtained by
    floor division (24 hours a day, 60 minutes an hour, 60 seconds a minute),
    all four always present; 90061 seconds give "1d 1h 1m 1s" and 0 seconds
    give "0d 0h 0m 0s".  From [2 ^ 53] seconds on the quotients are rounded
    and the day count can be one too many. *)
Theorem formatTime_decomposition (seconds : Q) :
  is_double seconds = true -> (0 <= seconds)%Q -> (seconds < inject_Z (2 ^ 53))%Q ->
  formatTime_double seconds = formatDuration_spec seconds
  /\ formatTime_parts seconds = duration_parts (Qfloor seconds)
  /\ formatTime_double (inject_Z 90061) = "1d 1h 1m 1s"
  /\ formatTime_double (inject_Z 0) = "0d 0h 0m 0s".
Proof.
  intros Hd H0 H1. split; [apply formatTime_double_spec; assumption|].
  split; [|split; vm_compute; reflexivity].
  destruct (double_dyadic seconds Hd H0 H1) as (c & j & Hs & Hc & Hj).
  exact (formatTime_parts_exact seconds c j Hs Hc Hj).
Qed.

(** C7: when the call is fulfilled with a body whose [city], [region],
    [country] and [loc] fields are strings, [location] is the first three
    joined by a comma and a space, and [coordinates] is [loc]. *)
Theorem getGeolocation_success (st : Z) (props : object) (city region country loc : string) :
  lookup props "city" = Some (VStr city) ->
  lookup props "region" = Some (VStr region) ->
  lookup props "country" = Some (VStr country) ->
  lookup props "loc" = Some (VStr loc) ->
  getGeolocation (Normal {| status := st; data := VObj props |})
  = Normal (VObj [("location", VStr (city ++ ", " ++ region ++ ", " ++ country));
                  ("coordinates", VStr loc)]).
Proof.
  intros H1 H2 H3 H4. unfold getGeolocation, destructure.
  cbn [bind data member]. rewrite H1, H2, H3, H4. reflexivity.
Qed.

(** C8: a request whose parsed pathname is neither "/" nor "/api" is
    answered, whatever its method, with status 404, a JSON content type and
    the body [{"error":"Route not found"}]. *)
Theorem route_not_found (h : Host) (geo : axios_outcome) (req : request) :
  url_parse_pathname (url req) <> Some "/" ->
  url_parse_pathname (url req) <> Some "/api" ->
  handler h geo req
  = Normal {| statusCode := 404;
              headers := [("Content-Type", "application/json")];
              body := JSON_stringify (VObj [("error", VStr "Route not found")]) |}
  /\ JSON_stringify (VObj [("error", VStr "Route not found")])
     = Some ("{" ++ dq ++ "error" ++ dq ++ ":" ++ dq ++ "Route not found" ++ dq ++ "}").
Proof.
  intros H1 H2. split; [|vm_compute; reflexivity].
  unfold handler, pathname_is.
  destruct (url_parse_pathname (url req)) as [p|]; [|reflexivity].
  destruct (String.eqb_spec p "/") as [->|_]; [congruence|].
  destruct (String.eqb_spec p "/api") as [->|_]; [congruence|].
  reflexivity.
Qed.

(** C9 (as amended): on a host that reports at least one CPU, a request to
    "/api" is answered, whatever its method, with status 200, a JSON content
    type and the text that [JSON.stringify (data, null, 2)] gives for an
    object with exactly the seven members cpu, memory, os, user, process,
    network and geolocation, in this order: the first six are the objects
    that the six collectors returned, the last one is the object that
    [getGeolocation] returned, and each of them is serialised, none left
    out.  On a host that reports no CPU the request is not answered. *)
Theorem api_document (h : Host) (geo : axios_outcome) (req : request) :
  os_cpus h <> [] ->
  url_parse_pathname (url req) = Some "/api" ->
  exists cpu memory os user process network g t1 t2 t3 t4 t5 t6 t7,
    (getCpuInfo h = Normal (VObj cpu)
     /\ getMemoryInfo h = Normal (VObj memory)
     /\ getOsInfo h = Normal (VObj os)
     /\ getUserInfo h = Normal (VObj user)
     /\ getProcessInfo h = Normal (VObj process)
     /\ getNetworkInfo h = Normal (VObj network)
     /\ getGeolocation geo = Normal (VObj g))
    /\ (SerializeJSONProperty "  " "  " (VObj cpu) = Some t1
        /\ SerializeJSONProperty "  " "  " (VObj memory) = Some t2
        /\ SerializeJSONProperty "  " "  " (VObj os) = Some t3
        /\ SerializeJSONProperty "  " "  " (VObj user) = Some t4
        /\ SerializeJSONProperty "  " "  " (VObj process) = Some t5
        /\ SerializeJSONProperty "  " "  " (VObj network) = Some t6
        /\ SerializeJSONProperty "  " "  " (VObj g) = Some t7)
    /\ JSON_stringify_2
         (VObj [("cpu", VObj cpu); ("memory", VObj memory); ("os", VObj os);
                ("user", VObj user); ("process", VObj process);
                ("network", VObj network); ("geolocation", VObj g)])
       = Some (pretty_object
                 [("cpu", t1); ("memory", t2); ("os", t3); ("user", t4);
                  ("process", t5); ("network", t6); ("geolocation", t7)])
    /\ handler h geo req
       = Normal {| statusCode := 200;
                   headers := [("Content-Type", "application/json")];
                   body := Some (pretty_object
                                   [("cpu", t1); ("memory", t2); ("os", t3);
                                    ("user", t4); ("process", t5); ("network", t6);
                                    ("geolocation", t7)]) |}.
Proof.
  intros Hc Hp. destruct (getGeolocation_object geo) as [g Hg].
  destruct (collect_each h Hc)
    as (cpu & memory & os & user & process & network & E1 & E2 & E3 & E4 & E5 & E6 & Hcol).
  destruct (stringify_snapshot cpu memory os user process network g)
    as (t1 & t2 & t3 & t4 & t5 & t6 & t7 & S1 & S2 & S3 & S4 & S5 & S6 & S7 & Hs).
  exists cpu, memory, os, user, process, network, g, t1, t2, t3, t4, t5, t6, t7.
  split; [repeat split; assumption|]. split; [repeat split; assumption|].
  split; [exact Hs|].
  unfold handler. rewrite Hp, Hg, Hcol.
  cbn [pathname_is bind app]. change (String.eqb "/api" "/") with false.
  change (String.eqb "/api" "/api") with true. cbv iota.
  rewrite Hs. reflexivity.
Qed.

(** C10: when [NODE_ENV] is set to the empty string, and likewise when it is
    absent, the process snapshot reports [env.NODE_ENV] as "Not set". *)
Theorem NODE_ENV_falsy_default (h : Host) :
  getenv (process_env h) "NODE_ENV" = Some "" \/ getenv (process_env h) "NODE_ENV" = None ->
  (p <- getProcessInfo h ;; e <- member p "env" ;; member e "NODE_ENV")
  = Normal (VStr "Not set").
Proof.
  intros He. destruct (getProcessInfo_shape h) as (a & b & c & d & e & ->).
  destruct He as [-> | ->]; reflexivity.
Qed.

(** * Further properties *)

(** ** The byte formatter *)

Lemma toFixed_throws_iff (x : number) (f : Z) :
  toFixed x f = Throw RangeError <-> f < 0 \/ 100 < f.
Proof.
  unfold toFixed. destruct (f <? 0) eqn:E1; destruct (100 <? f) eqn:E2; cbn [orb];
    try apply Z.ltb_lt in E1; try apply Z.ltb_lt in E2;
    try apply Z.ltb_ge in E1; try apply Z.ltb_ge in E2;
    try (split; [intros _; lia | reflexivity]).
  split; [|lia]. destruct x as [| | |q]; try discriminate.
  destruct (Qle_bool _ _); discriminate.
Qed.

Lemma toFixed_normal_or_range (x : number) (f : Z) :
  (exists s, toFixed x f = Normal s) \/ toFixed x f = Throw RangeError.
Proof.
  unfold toFixed. destruct ((f <? 0) || (100 <? f)); [right; reflexivity|left].
  destruct x as [| | |q]; try (eexists; reflexivity).
  destruct (Qle_bool _ _); eexists; reflexivity.
Qed.

(** X1: between 1 byte and 1024^4 - 1 bytes (below one terabyte) the unit
    is the largest one of the table that keeps the scaled value at or above
    1, and the printed value lies between 1.00 and 1024.00.  (No count in
    this range is close enough to a power of 1024 for the rounding of the
    two logarithms to matter; just below 1024^5 it does.) *)
Theorem formatBytes_in_table_range (bytes : Z) :
  1 <= bytes < 1024 ^ 4 ->
  exists i unit,
    0 <= i <= 3
    /\ 1024 ^ i <= bytes < 1024 ^ (i + 1)
    /\ nth_error sizes (Z.to_nat i) = Some unit
    /\ 100 <= round_half_up (bytes * 100) (1024 ^ i) <= 102400
    /\ formatBytes bytes default_decimal
       = Normal (two_places (round_half_up (bytes * 100) (1024 ^ i)) ++ " " ++ unit).
Proof.
  intros Hb4.
  assert (Hb : 1 <= bytes < 1024 ^ 5).
  { change (1024 ^ 4) with 1099511627776 in Hb4.
    change (1024 ^ 5) with 1125899906842624. lia. }
  destruct (formatBytes_below_petabyte bytes Hb) as (i & unit & Hi & Hr & Hu & Hf).
  exists i, unit.
  assert (Hi3 : i <= 3).
  { destruct (Z_le_gt_dec i 3) as [|Hgt]; [assumption|exfalso].
    assert (i = 4) by lia. subst i. destruct Hr as [Hr _]. clear Hb Hu Hf.
    change (1024 ^ 4) with 1099511627776 in *. lia. }
  clear Hb4.
  assert (Hp : 0 < 1024 ^ i) by (apply Z.pow_pos_nonneg; lia).
  assert (Hs : 1024 ^ (i + 1) = 1024 * 1024 ^ i).
  { rewrite Z.pow_add_r, Z.pow_1_r by lia. ring. }
  assert (Hlo : 100 <= round_half_up (bytes * 100) (1024 ^ i)).
  { unfold round_half_up. destruct Hr as [Hr _]. clear Hu Hf Hs Hb.
    remember (1024 ^ i) as d eqn:Ed. clear Ed.
    apply Z.div_le_lower_bound.
    - lia.
    - lia. }
  assert (Hhi : round_half_up (bytes * 100) (1024 ^ i) <= 102400).
  { unfold round_half_up. destruct Hr as [_ Hr]. rewrite Hs in Hr. clear Hu Hf Hs Hlo Hb.
    remember (1024 ^ i) as d eqn:Ed. clear Ed.
    apply Z.lt_succ_r. apply Z.div_lt_upper_bound.
    - lia.
    - lia. }
  split; [lia|]. split; [exact Hr|]. split; [exact Hu|].
  split; [split; [exact Hlo | exact Hhi] | exact Hf].
Qed.

(** X2: from 1024^5 bytes on, the formatter still returns, but the unit it
    prints is the text "undefined". *)
Theorem formatBytes_beyond_table (bytes : Z) :
  1024 ^ 5 <= bytes ->
  exists text, formatBytes bytes default_decimal = Normal (text ++ " undefined").
Proof.
  intros Hb. unfold formatBytes, default_decimal, log_floor.
  destruct (bytes =? 0) eqn:E0; [apply Z.eqb_eq in E0; lia|].
  destruct (bytes <? 0) eqn:E1; [apply Z.ltb_lt in E1; lia|].
  destruct (ilog_spec (S (Z.to_nat (Z.log2 bytes))) 1024 bytes ltac:(lia) ltac:(lia))
    as [H0 [H1 H2]].
  { pose proof (Z.log2_nonneg bytes). lia. }
  set (i := ilog (S (Z.to_nat (Z.log2 bytes))) 1024 bytes) in *.
  assert (Hi : 5 <= i).
  { destruct (Z_le_gt_dec 5 i) as [|Hlt]; [assumption|exfalso].
    assert (1024 ^ (i + 1) <= 1024 ^ 5) by (apply Z.pow_le_mono_r; lia). lia. }
  destruct (toFixed_two_total (parseFloat (num_div (of_int bytes) (Math_pow 1024 (of_int i)))))
    as [text Ht].
  rewrite Ht. exists text. cbn [bind]. do 3 f_equal.
  unfold element_at, of_int, is_integer. cbn [inject_Z Qnum Qden].
  rewrite Z.mod_1_r, Qfloor_Z. change (0 =? 0) with true.
  destruct (0 <=? i) eqn:E3; [|apply Z.leb_gt in E3; lia]. cbn [andb].
  assert (Hn : nth_error sizes (Z.to_nat i) = None).
  { apply nth_error_None. cbn [sizes List.length]. lia. }
  rewrite Hn. reflexivity.
Qed.

(** X3: a negative byte count is printed as "NaN undefined", whatever valid
    precision is asked for. *)
Theorem formatBytes_negative_count (bytes decimal : Z) :
  bytes < 0 -> 0 <= decimal <= 100 ->
  formatBytes bytes decimal = Normal "NaN undefined".
Proof.
  intros Hb Hd. unfold formatBytes, log_floor.
  destruct (bytes =? 0) eqn:E0; [apply Z.eqb_eq in E0; lia|].
  destruct (bytes <? 0) eqn:E1; [|apply Z.ltb_ge in E1; lia].
  cbn [Math_pow of_int num_div parseFloat]. unfold toFixed.
  destruct (decimal <? 0) eqn:E2; [apply Z.ltb_lt in E2; lia|].
  destruct (100 <? decimal) eqn:E3; [apply Z.ltb_lt in E3; lia|].
  reflexivity.
Qed.

(** X4: the formatter throws exactly when the count is not zero and the
    precision lies outside 0..100, and then it throws a [RangeError]; a zero
    count is answered before the precision is looked at. *)
Theorem formatBytes_throws_iff (bytes decimal : Z) :
  (formatBytes bytes decimal = Throw RangeError
   <-> bytes <> 0 /\ (decimal < 0 \/ 100 < decimal))
  /\ (forall e, formatBytes bytes decimal = Throw e -> e = RangeError).
Proof.
  unfold formatBytes.
  destruct (bytes =? 0) eqn:E0.
  - apply Z.eqb_eq in E0. split; [split; [discriminate | lia] | discriminate].
  - apply Z.eqb_neq in E0.
    set (x := parseFloat (num_div (of_int bytes) (Math_pow 1024 (log_floor bytes 1024)))).
    pose proof (toFixed_throws_iff x decimal) as Hiff.
    destruct (toFixed_normal_or_range x decimal) as [[s Hs]|Hs]; rewrite Hs in *; cbn [bind].
    + split; [|discriminate]. split; [discriminate|].
      intros [_ Hd]. apply Hiff in Hd. discriminate Hd.
    + split; [|intros e He; congruence].
      split; [intros _; split; [exact E0 | apply Hiff; reflexivity] | reflexivity].
Qed.

Lemma length_zeros (n : nat) : String.length (zeros n) = n.
Proof. induction n as [|n IH]; simpl; [reflexivity | now rewrite IH]. Qed.

Lemma substring_length (s : string) :
  forall n m, (n + m <= String.length s)%nat -> String.length (substring n m s) = m.
Proof.
  induction s as [|c s IH]; intros n m H.
  - simpl in H. assert (n = 0%nat /\ m = 0%nat) as [-> ->] by lia. reflexivity.
  - destruct n as [|n]; destruct m as [|m]; simpl in *; try reflexivity.
    + rewrite (IH 0%nat m) by lia. reflexivity.
    + apply IH. lia.
    + apply IH. lia.
Qed.

Lemma place_point_shape (m : string) (fd : nat) :
  (1 <= String.length m)%nat -> (1 <= fd)%nat ->
  exists whole frac,
    place_point m fd = whole ++ "." ++ frac
    /\ String.length frac = fd /\ (1 <= String.length whole)%nat.
Proof.
  intros Hm Hfd. unfold place_point.
  destruct (String.length m <=? fd)%nat eqn:E.
  - apply Nat.leb_le in E.
    set (m' := zeros (fd + 1 - String.length m) ++ m).
    assert (Hl : String.length m' = (fd + 1)%nat).
    { unfold m'. rewrite length_append, length_zeros. lia. }
    exists (substring 0 (fd + 1 - fd) m'), (substring (fd + 1 - fd) fd m').
    split; [reflexivity|]. split; apply substring_length || (rewrite substring_length; lia); lia.
  - apply Nat.leb_gt in E.
    exists (substring 0 (String.length m - fd) m), (substring (String.length m - fd) fd m).
    split; [reflexivity|]. split; apply substring_length || (rewrite substring_length; lia); lia.
Qed.

Lemma toFixed_shape (a : Z) (b : positive) (f : Z) :
  0 <= a -> a < 10 ^ 21 * Zpos b -> 1 <= f <= 100 ->
  exists whole frac,
    toFixed (Fin (a # b)) f = Normal (whole ++ "." ++ frac)
    /\ String.length frac = Z.to_nat f /\ (1 <= String.length whole)%nat.
Proof.
  intros Ha Hb Hf. unfold toFixed.
  destruct (f <? 0) eqn:E1; [apply Z.ltb_lt in E1; lia|].
  destruct (100 <? f) eqn:E2; [apply Z.ltb_lt in E2; lia|].
  destruct (f =? 0) eqn:E3; [apply Z.eqb_eq in E3; lia|].
  cbn [orb]. unfold Qsign_neg. cbn [Qnum].
  destruct (a <? 0) eqn:E; [apply Z.ltb_lt in E; lia|].
  assert (Hbig : Qle_bool (inject_Z (10 ^ 21)) (a # b) = false).
  { unfold Qle_bool. cbn [Qnum Qden inject_Z]. apply Z.leb_gt. lia. }
  rewrite Hbig.
  set (n := Qfloor ((a # b) * inject_Z (10 ^ f) + (1 # 2))).
  assert (Hn : 0 <= n).
  { unfold n. cbv [Qfloor Qplus Qmult inject_Z Qnum Qden].
    assert (0 <= 10 ^ f) by (apply Z.pow_nonneg; lia).
    apply Z.div_pos; [|reflexivity]. nia. }
  assert (Hlen : (1 <= String.length (if (n =? 0)%Z then "0" else decimal n))%nat).
  { destruct (n =? 0)%Z; [simpl; lia | apply decimal_length_pos; exact Hn]. }
  destruct (place_point_shape _ (Z.to_nat f) Hlen ltac:(lia)) as (whole & frac & Hp & H1 & H2).
  exists whole, frac. rewrite Hp. cbn [append]. auto.
Qed.

Lemma formatBytes_scaled (bytes : Z) :
  1 <= bytes ->
  exists i pw,
    0 <= i /\ 1024 ^ i = Zpos pw /\ Zpos pw <= bytes < 1024 * Zpos pw
    /\ forall decimal,
         formatBytes bytes decimal
         = (fixed <- toFixed (Fin (bytes # pw)) decimal ;;
            Normal (fixed ++ " " ++ or_undefined (nth_error sizes (Z.to_nat i)))).
Proof.
  intros Hb.
  destruct (ilog_spec (S (Z.to_nat (Z.log2 bytes))) 1024 bytes ltac:(lia) Hb) as [H0 [H1 H2]].
  { pose proof (Z.log2_nonneg bytes). lia. }
  set (i := ilog (S (Z.to_nat (Z.log2 bytes))) 1024 bytes) in *.
  assert (Hpow : 0 < 1024 ^ i) by (apply Z.pow_pos_nonneg; lia).
  rewrite Z.pow_add_r, Z.pow_1_r in H2 by lia.
  destruct (1024 ^ i) as [|pw|pw] eqn:Epw; try lia.
  exists i, pw. split; [exact H0|]. split; [exact Epw|]. split; [lia|].
  intros decimal. unfold formatBytes, log_floor.
  destruct (bytes =? 0) eqn:E0; [apply Z.eqb_eq in E0; lia|].
  destruct (bytes <? 0) eqn:E1; [apply Z.ltb_lt in E1; lia|].
  fold i. unfold parseFloat, Math_pow, of_int, element_at, is_integer.
  cbn [inject_Z Qnum Qden]. rewrite Z.mod_1_r, Qfloor_Z. change (0 =? 0) with true.
  destruct (i <? 0) eqn:E2; [apply Z.ltb_lt in E2; lia|].
  destruct (0 <=? i) eqn:E3; [|apply Z.leb_gt in E3; lia].
  cbn [andb]. rewrite Epw.
  assert (Hq : num_div (Fin (inject_Z bytes)) (Fin (inject_Z (Zpos pw))) = Fin (bytes # pw)).
  { cbv [num_div Qis_zero inject_Z Qnum Z.eqb Qdiv Qinv Qmult Qden].
    rewrite Z.mul_1_r, Pos.mul_1_l. reflexivity. }
  rewrite Hq. reflexivity.
Qed.

(** X5: for a positive count and a precision between 1 and 100 the printed
    value has a non-empty integer part, a point and exactly as many digits
    after it as the precision asks for. *)
Theorem formatBytes_decimal_places (bytes decimal : Z) :
  1 <= bytes -> 1 <= decimal <= 100 ->
  exists whole frac unit_text,
    formatBytes bytes decimal = Normal (whole ++ "." ++ frac ++ " " ++ unit_text)
    /\ String.length frac = Z.to_nat decimal
    /\ (1 <= String.length whole)%nat.
Proof.
  intros Hb Hd.
  destruct (formatBytes_scaled bytes Hb) as (i & pw & Hi & Hpw & Hr & Hf).
  destruct (toFixed_shape bytes pw decimal ltac:(lia) ltac:(lia) Hd)
    as (whole & frac & Ht & H1 & H2).
  exists whole, frac, (or_undefined (nth_error sizes (Z.to_nat i))).
  rewrite Hf, Ht. cbn [bind]. rewrite !append_assoc. auto.
Qed.

(** ** The duration formatter *)

Lemma Qfloor_nonneg (x : Q) : 0 <= Qnum x -> 0 <= Qfloor x.
Proof. destruct x as [a b]. cbn [Qnum Qfloor]. intros H. apply Z.div_pos; lia. Qed.

Lemma Qle_num (x : Q) : (0 <= x)%Q -> 0 <= Qnum x.
Proof. unfold Qle. cbn [Qnum Qden]. lia. Qed.

(** X6: for a non-negative double below [2 ^ 53] seconds the four printed
    components recompose the whole seconds, [d * 86400 + h * 3600 + m * 60 + s],
    with hours below 24 and minutes and seconds below 60, and all four are
    plain decimal digits. *)
Theorem formatTime_recomposes (seconds : Q) :
  is_double seconds = true -> (0 <= seconds)%Q -> (seconds < inject_Z (2 ^ 53))%Q ->
  exists d h m s,
    Qfloor seconds = d * 86400 + h * 3600 + m * 60 + s
    /\ 0 <= d /\ 0 <= h < 24 /\ 0 <= m < 60 /\ 0 <= s < 60
    /\ formatTime_double seconds
       = decimal d ++ "d " ++ decimal h ++ "h " ++ decimal m ++ "m " ++ decimal s ++ "s".
Proof.
  intros Hdb Hs Hlt. pose proof (Qfloor_nonneg seconds (Qle_num seconds Hs)) as Ht.
  assert (Hfl : Qfloor seconds < 2 ^ 53).
  { rewrite Zlt_Qlt. apply Qle_lt_trans with seconds; [apply Qfloor_le | exact Hlt]. }
  pose proof (duration_parts_sound (Qfloor seconds) Ht) as Hp.
  rewrite (formatTime_double_spec seconds Hdb Hs Hlt). unfold formatDuration_spec.
  unfold duration_parts in *.
  set (d := Qfloor seconds / 86400) in *. set (h := Qfloor seconds / 3600 mod 24) in *.
  set (m := Qfloor seconds / 60 mod 60) in *. set (s := Qfloor seconds mod 60) in *.
  destruct Hp as (Hsum & Hd & Hh & Hm & Hsec).
  exists d, h, m, s. repeat split; try lia.
  assert (Hbig : 60 < 2 ^ 53) by reflexivity.
  rewrite (Number_toString_digits d), (Number_toString_digits h),
    (Number_toString_digits m), (Number_toString_digits s) by lia.
  reflexivity.
Qed.


(** A whole number below [2 ^ 53] is a double. *)
Lemma is_double_int (B : Z) : 0 <= B < 2 ^ 53 -> is_double (inject_Z B) = true.
Proof.
  intros HB. unfold is_double. rewrite (nearest64_int (inject_Z B) B (Qeq_refl _) HB).
  apply andb_true_iff. split; [apply Qeq_bool_iff; reflexivity|].
  apply negb_true_iff. destruct (Qle_bool _ _) eqn:E; [exfalso|reflexivity].
  apply Qle_bool_iff in E. rewrite Qabs_pos in E.
  - assert (H : (inject_Z (2 ^ 53) <= two_pow 1024)%Q).
    { rewrite <- two_pow_int by lia. apply two_pow_le. lia. }
    assert (H' : (inject_Z B < inject_Z (2 ^ 53))%Q) by (rewrite <- Zlt_Qlt; lia).
    lra.
  - change 0%Q with (inject_Z 0). rewrite <- Zle_Qle. lia.
Qed.

(** The code's doubles drop the fraction as exact arithmetic does. *)
Lemma formatTime_double_drops_fraction (seconds : Q) :
  is_double seconds = true -> (0 <= seconds)%Q -> (seconds < inject_Z (2 ^ 53))%Q ->
  formatTime_double seconds = formatTime_double (inject_Z (Qfloor seconds)).
Proof.
  intros Hd H0 H1. pose proof (Qfloor_nonneg seconds (Qle_num seconds H0)) as Ht.
  assert (Hfl : Qfloor seconds < 2 ^ 53).
  { rewrite Zlt_Qlt. apply Qle_lt_trans with seconds; [apply Qfloor_le | exact H1]. }
  rewrite (formatTime_double_spec seconds Hd H0 H1).
  rewrite (formatTime_double_spec (inject_Z (Qfloor seconds))).
  - unfold formatDuration_spec. rewrite Qfloor_Z. reflexivity.
  - apply is_double_int. lia.
  - change 0%Q with (inject_Z 0). rewrite <- Zle_Qle. exact Ht.
  - rewrite <- Zlt_Qlt. exact Hfl.
Qed.

Lemma exponent64_abs (x : Q) : exponent64 (Qabs x) = exponent64 x.
Proof.
  unfold exponent64. destruct x as [a b]. cbn [Qabs]. rewrite Z.abs_idemp. reflexivity.
Qed.

(** A negative quotient between -1 and the smallest double does not vanish:
    its double is negative and at least -1. *)
Lemma floor_nearest64_neg (x : Q) :
  (- (1) <= x)%Q -> (x <= - two_pow (-1074))%Q -> Qfloor (nearest64 x) = -1.
Proof.
  intros H1 H2. pose proof (two_pow_pos (-1074)) as Hu.
  assert (Hneg : (x <= 0)%Q) by lra.
  assert (Habs : (Qabs x == - x)%Q) by (apply Qabs_neg; exact Hneg).
  assert (Hpa : (0 < Qabs x)%Q) by lra.
  assert (He : exponent64 x <= 0).
  { rewrite <- exponent64_abs.
    assert (Hlt : (Qabs x < two_pow (52 + 1))%Q).
    { apply Qle_lt_trans with 1%Q; [lra | reflexivity]. }
    pose proof (exponent64_le (Qabs x) 52 (Qabs_nonneg x) Hlt ltac:(lia)). lia. }
  assert (Hgrid : (two_pow (exponent64 x) <= Qabs x)%Q).
  { unfold exponent64. destruct (Qlog2_spec (Qabs x) Hpa) as [Hl _].
    destruct (Z.max_spec (Qlog2 (Qabs x) - 52) (-1074)) as [[_ ->]|[_ ->]].
    - lra.
    - apply Qle_trans with (2 := Hl). apply two_pow_le. lia. }
  set (e := exponent64 x) in *. pose proof (two_pow_pos e) as Hpe.
  unfold nearest64. fold e. apply Qfloor_unique; rewrite Qred_correct.
  - assert (Hone : (inject_Z (-1 * 2 ^ (- e)) * two_pow e == inject_Z (-1))%Q)
      by (apply int_on_grid; exact He).
    rewrite <- Hone. apply round_at_ge. rewrite Hone. exact H1.
  - assert (Hr : (round_at e x <= inject_Z (-1) * two_pow e)%Q).
    { apply round_at_le. change (inject_Z (-1)) with (- (1))%Q. lra. }
    change (inject_Z (-1)) with (- (1))%Q in Hr. change (inject_Z (-1 + 1)) with 0%Q. lra.
Qed.

(** From -1 up to 0 the remainder by an integer above 1 is the number itself. *)
Lemma js_rem_small_neg (s : Q) (p : positive) :
  (- (1) <= s)%Q -> (s < 0)%Q -> 1 < Zpos p -> (js_rem s (inject_Z (Zpos p)) == s)%Q.
Proof.
  destruct s as [a b]. unfold Qle, Qlt. cbn [Qnum Qden Qopp inject_Z]. intros H1 H2 Hp.
  assert (Htr : Qtrunc ((a # b) / (Zpos p # 1)) = 0).
  { cbv [Qtrunc Qsign_neg Qdiv Qinv Qmult Qnum Qden Qceiling Qfloor Qopp].
    rewrite Z.mul_1_r. destruct (a <? 0) eqn:E; [|apply Z.ltb_ge in E; lia].
    rewrite (Z.div_small (- a) (Zpos (b * p))) by (rewrite Pos2Z.inj_mul; nia).
    reflexivity. }
  unfold js_rem. change (inject_Z (Zpos p)) with (Zpos p # 1). rewrite Htr.
  change (inject_Z 0) with 0%Q. ring.
Qed.

(** X8: a negative duration is not clamped: for every normal double from -1
    second up to, but not including, 0 (that is, up to [- 2 ^ -1022]) every
    component is printed as -1. *)
Theorem formatTime_small_negative (seconds : Q) :
  (- (1) <= seconds)%Q -> (seconds <= - two_pow (-1022))%Q ->
  formatTime_double seconds = "-1d -1h -1m -1s".
Proof.
  intros H1 H2. pose proof (two_pow_pos (-1074)) as Hu.
  assert (H22 : (two_pow (-1022) == 4503599627370496 * two_pow (-1074))%Q).
  { change (-1022) with (52 + -1074). rewrite two_pow_add. reflexivity. }
  rewrite H22 in H2. set (u := two_pow (-1074)) in *.
  assert (Hneg : (seconds < 0)%Q) by lra.
  assert (Hq : forall (r : Q) (p : positive),
             (r == seconds)%Q -> 1 <= Zpos p <= 86400 ->
             Qfloor (nearest64 (r / inject_Z (Zpos p))) = -1).
  { intros r p Hr Hp.
    assert (HP1 : (1 <= inject_Z (Zpos p))%Q).
    { change 1%Q with (inject_Z 1). rewrite <- Zle_Qle. lia. }
    assert (HP2 : (inject_Z (Zpos p) <= 86400)%Q).
    { change 86400%Q with (inject_Z 86400). rewrite <- Zle_Qle. lia. }
    assert (HuP : (u * inject_Z (Zpos p) <= u * 86400)%Q).
    { rewrite !(Qmult_comm u). apply Qmult_le_compat_r; lra. }
    apply floor_nearest64_neg.
    - apply Qle_shift_div_l; lra.
    - apply Qle_shift_div_r; [lra|]. fold u. lra. }
  assert (Hlast : Qfloor (js_rem seconds (inject_Z (Zpos 60))) = -1).
  { apply Qfloor_unique.
    - rewrite js_rem_small_neg by (assumption || lia). exact H1.
    - rewrite js_rem_small_neg by (assumption || lia). exact Hneg. }
  unfold formatTime_double, formatTime_parts, div64, Math_floor.
  change (3600 * 24) with 86400.
  change (inject_Z 86400) with (inject_Z (Zpos 86400)).
  change (inject_Z 3600) with (inject_Z (Zpos 3600)).
  change (inject_Z 60) with (inject_Z (Zpos 60)).
  rewrite (Hq seconds 86400%positive (Qeq_refl _) ltac:(lia)).
  rewrite (Hq (js_rem seconds (inject_Z (Zpos 86400))) 3600%positive) by
    (try apply js_rem_small_neg; assumption || lia).
  rewrite (Hq (js_rem seconds (inject_Z (Zpos 3600))) 60%positive) by
    (try apply js_rem_small_neg; assumption || lia).
  rewrite Hlast. reflexivity.
Qed.

(** ** The memory collector *)

(** X9: with [0 <= free <= total] and [total > 0] the usage is a number of
    hundredths between 0 and 10000, that is between 0.00% and 100.00%; it is
    "100.00%" when nothing is free and "0.00%" when everything is. *)
Theorem usage_between_0_and_100 (h : Host) :
  0 < os_totalmem h ->
  0 <= os_freemem h <= os_totalmem h ->
  (exists n, 0 <= n <= 10000
             /\ (m <- getMemoryInfo h ;; member m "usage")
                = Normal (VStr (two_places n ++ "%")))
  /\ (os_freemem h = 0 ->
      (m <- getMemoryInfo h ;; member m "usage") = Normal (VStr "100.00%"))
  /\ (os_freemem h = os_totalmem h ->
      (m <- getMemoryInfo h ;; member m "usage") = Normal (VStr "0.00%")).
Proof.
  intros HT HF.
  destruct (getMemoryInfo_shape h) as (total & free & fixed & _ & _ & Hu & ->).
  cbn [bind member lookup String.eqb Ascii.eqb Bool.eqb].
  split; [|split].
  - destruct (usage_fixed _ _ HT HF) as (n & Hn & Hr & _).
    rewrite Hn in Hu. injection Hu as <-. exists n. split; [exact Hr | reflexivity].
  - intros H0. rewrite H0, usage_percent_none_free in Hu by exact HT.
    vm_compute in Hu. injection Hu as <-. reflexivity.
  - intros H0. rewrite H0, usage_percent_all_free in Hu by exact HT.
    vm_compute in Hu. injection Hu as <-. reflexivity.
Qed.

(** X10: a host that reports no memory at all does not make the collector
    throw: the division by zero shows up as the usage "NaN%" when the free
    count is zero as well, and as "-Infinity%" when it is positive. *)
Theorem getMemoryInfo_zero_total (h : Host) :
  os_totalmem h = 0 ->
  0 <= os_freemem h ->
  exists free,
    formatBytes (os_freemem h) default_decimal = Normal free
    /\ getMemoryInfo h
       = Normal (VObj [("total", VStr "0 Bytes"); ("free", VStr free);
                       ("usage",
                        VStr (if os_freemem h =? 0 then "NaN%" else "-Infinity%"))]).
Proof.
  intros HT HF. destruct (formatBytes_total (os_freemem h)) as [free Hfree].
  exists free. split; [exact Hfree|].
  unfold getMemoryInfo. rewrite HT, Hfree. cbn [bind formatBytes Z.eqb].
  unfold usage_percent, of_int, num_div.
  cbv [Qis_zero Qsign_neg inject_Z Qnum]. change (0 =? 0) with true. cbv iota.
  destruct (os_freemem h =? 0) eqn:E0; [reflexivity|].
  destruct (os_freemem h <? 0) eqn:E1; [apply Z.ltb_lt in E1; lia|].
  reflexivity.
Qed.

(** ** The geolocation client *)

(** X11: [getGeolocation] never throws: whatever the call settles to, it
    returns an object with exactly the members [location], a string, and
    [coordinates]. *)
Theorem getGeolocation_never_throws (geo : axios_outcome) :
  exists location coordinates,
    getGeolocation geo
    = Normal (VObj [("location", VStr location); ("coordinates", coordinates)]).
Proof.
  unfold getGeolocation, sentinel. destruct geo as [resp|e]; [|do 2 eexists; reflexivity].
  cbn [bind]. destruct (destructure (data resp)) as [[[[c r] k] l]|e];
    [|do 2 eexists; reflexivity].
  cbn [bind]. destruct (ToString c); [|do 2 eexists; reflexivity].
  cbn [bind]. destruct (ToString r); [|do 2 eexists; reflexivity].
  cbn [bind]. destruct (ToString k); do 2 eexists; reflexivity.
Qed.

(** X12: a fulfilled call whose body is not an object (the raw text of a body
    that is not JSON, a number, a boolean, an array) is not a failure for the
    client: it answers with the location "undefined, undefined, undefined"
    and no coordinates, whatever the status. *)
Theorem getGeolocation_fieldless_body (st : Z) (d : value) :
  fieldless d = true ->
  getGeolocation (Normal {| status := st; data := d |}) = Normal undefined_result.
Proof. destruct d; intros H; try discriminate H; reflexivity. Qed.

(** X13: the client looks at nothing but the four fields: two fulfilled
    calls whose bodies agree on [city], [region], [country] and [loc] get the
    same answer, whatever their status and their other fields. *)
Theorem getGeolocation_four_fields_only (st1 st2 : Z) (p1 p2 : object) :
  lookup p1 "city" = lookup p2 "city" ->
  lookup p1 "region" = lookup p2 "region" ->
  lookup p1 "country" = lookup p2 "country" ->
  lookup p1 "loc" = lookup p2 "loc" ->
  getGeolocation (Normal {| status := st1; data := VObj p1 |})
  = getGeolocation (Normal {| status := st2; data := VObj p2 |}).
Proof.
  intros H1 H2 H3 H4. unfold getGeolocation, destructure.
  cbn [bind data member]. rewrite H1, H2, H3, H4. reflexivity.
Qed.

(** ** The process collector and start-up *)

(** X14: a non-empty [NODE_ENV] is reported as it is. *)
Theorem NODE_ENV_reported (h : Host) (label : string) :
  getenv (process_env h) "NODE_ENV" = Some label ->
  label <> "" ->
  (p <- getProcessInfo h ;; e <- member p "env" ;; member e "NODE_ENV")
  = Normal (VStr label).
Proof.
  intros He Hl. destruct (getProcessInfo_shape h) as (a & b & c & d & e & ->).
  rewrite He. cbn [bind member lookup String.eqb Ascii.eqb Bool.eqb or_else].
  destruct (String.eqb_spec label ""); [contradiction | reflexivity].
Qed.

(** X15: the port is 10000 when [PORT] is unset or empty, and otherwise the
    text of the variable, passed on unparsed; the start-up line ends with it. *)
Theorem listening_banner_port (h : Host) :
  (getenv (process_env h) "PORT" = None \/ getenv (process_env h) "PORT" = Some "" ->
   PORT h = VNum (of_int 10000)
   /\ listening_banner h = Normal "SysView is running at http://localhost:10000")
  /\ (forall text, getenv (process_env h) "PORT" = Some text -> text <> "" ->
      PORT h = VStr text
      /\ listening_banner h = Normal ("SysView is running at http://localhost:" ++ text)).
Proof.
  unfold listening_banner, PORT. split.
  - intros [-> | ->]; split; reflexivity.
  - intros text -> Ht. destruct (String.eqb_spec text ""); [contradiction|].
    split; reflexivity.
Qed.

(** ** Serialisation *)

Lemma object_members_app (gap indent : string) (p1 p2 : object) :
  object_members gap indent (p1 ++ p2)%list
  = (object_members gap indent p1 ++ object_members gap indent p2)%list.
Proof. unfold object_members. apply flat_map_app. Qed.

(** X16: a member whose value is [undefined] leaves no trace in the text:
    the object serialises as it would without that member. *)
Theorem undefined_member_omitted (gap indent key : string) (p1 p2 : object) :
  SerializeJSONProperty gap indent (VObj (p1 ++ (key, VUndefined) :: p2)%list)
  = SerializeJSONProperty gap indent (VObj (p1 ++ p2)%list).
Proof.
  rewrite !serialize_object, !object_members_app. reflexivity.
Qed.

Lemma list_ascii_append (a b : string) :
  list_ascii_of_string (a ++ b)
  = (list_ascii_of_string a ++ list_ascii_of_string b)%list.
Proof. induction a as [|c a IH]; simpl; [reflexivity | now rewrite IH]. Qed.

Lemma quote_char_printable (c c' : ascii) :
  In c' (list_ascii_of_string (quote_char c)) -> (32 <= nat_of_ascii c')%nat.
Proof.
  assert (H : forallb (fun a => (32 <=? nat_of_ascii a)%nat)
                (list_ascii_of_string (quote_char c)) = true).
  { destruct c as [[] [] [] [] [] [] [] []]; vm_compute; reflexivity. }
  intros Hin. rewrite forallb_forall in H. apply Nat.leb_le. apply H. exact Hin.
Qed.

(** X17: a quoted string never contains a raw control character: every
    character of the text has a code of 32 or more. *)
Theorem QuoteJSONString_no_control (s : string) (c : ascii) :
  In c (list_ascii_of_string (QuoteJSONString s)) -> (32 <= nat_of_ascii c)%nat.
Proof.
  unfold QuoteJSONString. rewrite !list_ascii_append. intros H.
  apply in_app_or in H. destruct H as [H|H].
  { destruct H as [<- | []]. vm_compute. lia. }
  apply in_app_or in H. destruct H as [H|H].
  2:{ destruct H as [<- | []]. vm_compute. lia. }
  induction s as [|x s IH]; [contradiction|].
  cbn [quote_body] in H. rewrite list_ascii_append in H.
  apply in_app_or in H. destruct H as [H|H]; [|exact (IH H)].
  exact (quote_char_printable x c H).
Qed.

(** ** The dashboard and the router *)

Lemma pretty_member_total (fields : object) (key : string) :
  exists t, pretty_member (VObj fields) key = Normal t.
Proof.
  unfold pretty_member. cbn [member]. destruct (lookup fields key); eexists; reflexivity.
Qed.

Lemma buildHtmlPage_text (fields : object) (location : string) (coordinates : value)
      (shown : string) :
  ToString coordinates = Normal shown ->
  exists t1 t2 t3 t4 t5 t6,
    buildHtmlPage (VObj fields)
      (VObj [("location", VStr location); ("coordinates", coordinates)])
    = Normal (page_head t1 t2 t3 t4 t5 t6
                ++ "  <pre>Location: " ++ location ++ "</pre>" ++ nl
                ++ "  <pre>Coordinates: " ++ shown ++ "</pre>" ++ page_tail).
Proof.
  intros Hc. unfold buildHtmlPage.
  destruct (pretty_member_total fields "cpu") as [t1 ->].
  destruct (pretty_member_total fields "memory") as [t2 ->].
  destruct (pretty_member_total fields "os") as [t3 ->].
  destruct (pretty_member_total fields "user") as [t4 ->].
  destruct (pretty_member_total fields "process") as [t5 ->].
  destruct (pretty_member_total fields "network") as [t6 ->].
  exists t1, t2, t3, t4, t5, t6.
  cbn [bind member lookup String.eqb Ascii.eqb Bool.eqb ToString]. rewrite Hc. cbn [bind].
  f_equal. unfold page_head, page_tail. rewrite !append_assoc. reflexivity.
Qed.

Lemma buildHtmlPage_throws (fields : object) (location : string) (coordinates : value)
      (e : error) :
  ToString coordinates = Throw e ->
  buildHtmlPage (VObj fields)
    (VObj [("location", VStr location); ("coordinates", coordinates)])
  = Throw e.
Proof.
  intros Hc. unfold buildHtmlPage.
  destruct (pretty_member_total fields "cpu") as [t1 ->].
  destruct (pretty_member_total fields "memory") as [t2 ->].
  destruct (pretty_member_total fields "os") as [t3 ->].
  destruct (pretty_member_total fields "user") as [t4 ->].
  destruct (pretty_member_total fields "process") as [t5 ->].
  destruct (pretty_member_total fields "network") as [t6 ->].
  cbn [bind member lookup String.eqb Ascii.eqb Bool.eqb ToString]. rewrite Hc. reflexivity.
Qed.

Lemma handler_dashboard (h : Host) (geo : axios_outcome) (req : request)
      (location : string) (coordinates : value) :
  os_cpus h <> [] ->
  url_parse_pathname (url req) = Some "/" ->
  getGeolocation geo
  = Normal (VObj [("location", VStr location); ("coordinates", coordinates)]) ->
  exists fields,
    handler h geo req
    = (page <- buildHtmlPage (VObj fields)
                 (VObj [("location", VStr location); ("coordinates", coordinates)]) ;;
       Normal {| statusCode := 200;
                 headers := [("Content-Type", "text/html")];
                 body := Some page |}).
Proof.
  intros Hc Hp Hg. unfold handler. rewrite Hp, Hg.
  destruct (collect_objects h Hc) as (cpu & memory & os & user & process & network & Hcol).
  rewrite Hcol.
  exists [("cpu", VObj cpu); ("memory", VObj memory); ("os", VObj os);
          ("user", VObj user); ("process", VObj process); ("network", VObj network)].
  cbn [pathname_is bind]. change (String.eqb "/" "/") with true. cbv iota.
  destruct (buildHtmlPage _ _); reflexivity.
Qed.

(** X18: when the geolocation call fails, the dashboard is still served, on
    a host with at least one CPU, with status 200 and an HTML content type,
    and its page shows the two sentinel texts. *)
Theorem dashboard_without_geolocation
  (h : Host) (geo : axios_outcome) (req : request) :
  caught geo ->
  os_cpus h <> [] ->
  url_parse_pathname (url req) = Some "/" ->
  exists before after,
    handler h geo req
    = Normal {| statusCode := 200;
                headers := [("Content-Type", "text/html")];
                body := Some (before
                                ++ "  <pre>Location: Location not found</pre>" ++ nl
                                ++ "  <pre>Coordinates: Not available</pre>"
                                ++ after) |}.
Proof.
  intros Hgeo Hc Hp.
  destruct (handler_dashboard h geo req _ _ Hc Hp (getGeolocation_caught geo Hgeo))
    as [fields ->].
  destruct (buildHtmlPage_text fields "Location not found" (VStr "Not available")
              "Not available" eq_refl) as (t1 & t2 & t3 & t4 & t5 & t6 & ->).
  exists (page_head t1 t2 t3 t4 t5 t6), page_tail. reflexivity.
Qed.

(** X19: when the call is fulfilled with string fields, the dashboard shows
    the location and the coordinates as they came, character for character:
    nothing is escaped on the way into the page. *)
Theorem dashboard_shows_fields_verbatim
  (h : Host) (req : request) (st : Z) (props : object)
  (city region country loc : string) :
  lookup props "city" = Some (VStr city) ->
  lookup props "region" = Some (VStr region) ->
  lookup props "country" = Some (VStr country) ->
  lookup props "loc" = Some (VStr loc) ->
  os_cpus h <> [] ->
  url_parse_pathname (url req) = Some "/" ->
  exists before after,
    handler h (Normal {| status := st; data := VObj props |}) req
    = Normal {| statusCode := 200;
                headers := [("Content-Type", "text/html")];
                body := Some (before
                                ++ "  <pre>Location: " ++ city ++ ", " ++ region ++ ", "
                                ++ country ++ "</pre>" ++ nl
                                ++ "  <pre>Coordinates: " ++ loc ++ "</pre>"
                                ++ after) |}.
Proof.
  intros H1 H2 H3 H4 Hc Hp.
  assert (Hg : getGeolocation (Normal {| status := st; data := VObj props |})
               = Normal (VObj [("location", VStr (city ++ ", " ++ region ++ ", " ++ country));
                               ("coordinates", VStr loc)])).
  { unfold getGeolocation, destructure. cbn [bind data member].
    rewrite H1, H2, H3, H4. reflexivity. }
  destruct (handler_dashboard h _ req _ _ Hc Hp Hg) as [fields ->].
  destruct (buildHtmlPage_text fields (city ++ ", " ++ region ++ ", " ++ country)
              (VStr loc) loc eq_refl) as (t1 & t2 & t3 & t4 & t5 & t6 & ->).
  exists (page_head t1 t2 t3 t4 t5 t6), page_tail.
  cbn [bind]. rewrite !append_assoc. reflexivity.
Qed.

(** X20: a [loc] field that is an object with an own [toString] member gets
    past the client, since only the first three fields are printed there; the
    dashboard then throws a [TypeError] while printing the coordinates and
    sends nothing, whereas the same request to "/api" is answered with 200. *)
Theorem dashboard_unprintable_coordinates
  (h : Host) (req : request) (st : Z) (props inner : object)
  (city region country : string) :
  lookup props "city" = Some (VStr city) ->
  lookup props "region" = Some (VStr region) ->
  lookup props "country" = Some (VStr country) ->
  lookup props "loc" = Some (VObj inner) ->
  has_own inner "toString" = true ->
  os_cpus h <> [] ->
  (url_parse_pathname (url req) = Some "/" ->
   handler h (Normal {| status := st; data := VObj props |}) req = Throw TypeError)
  /\ (url_parse_pathname (url req) = Some "/api" ->
      exists text,
        handler h (Normal {| status := st; data := VObj props |}) req
        = Normal {| statusCode := 200;
                    headers := [("Content-Type", "application/json")];
                    body := Some text |}).
Proof.
  intros H1 H2 H3 H4 Hown Hc.
  assert (Hg : getGeolocation (Normal {| status := st; data := VObj props |})
               = Normal (VObj [("location", VStr (city ++ ", " ++ region ++ ", " ++ country));
                               ("coordinates", VObj inner)])).
  { unfold getGeolocation, destructure. cbn [bind data member].
    rewrite H1, H2, H3, H4. reflexivity. }
  split; intros Hp.
  - destruct (handler_dashboard h _ req _ _ Hc Hp Hg) as [fields ->].
    rewrite (buildHtmlPage_throws fields _ (VObj inner) TypeError); [reflexivity|].
    cbn [ToString]. rewrite Hown. reflexivity.
  - destruct (handler_api h _ req _ Hc Hp Hg)
      as (t1 & t2 & t3 & t4 & t5 & t6 & t7 & _ & ->).
    eexists. reflexivity.
Qed.

(** X21: on a host that reports no CPU both data routes throw a [TypeError]
    (reading [model] off [os.cpus ()[0]]) and send nothing, whatever the
    geolocation call did. *)
Theorem no_cpu_rejects (h : Host) (geo : axios_outcome) (req : request) :
  os_cpus h = [] ->
  url_parse_pathname (url req) = Some "/" \/ url_parse_pathname (url req) = Some "/api" ->
  handler h geo req = Throw TypeError.
Proof.
  intros Hc Hp. destruct (getGeolocation_object geo) as [g Hg].
  assert (Hcol : collect h = Throw TypeError).
  { unfold collect, getCpuInfo. rewrite Hc. reflexivity. }
  unfold handler. destruct Hp as [-> | ->]; rewrite Hg, Hcol; reflexivity.
Qed.

(** X22: when the call is fulfilled with a body that is not an object, the
    API document's [geolocation] member has a [location] only: the undefined
    [coordinates] are left out of the text. *)
Theorem api_without_coordinates
  (h : Host) (req : request) (st : Z) (d : value) :
  fieldless d = true ->
  os_cpus h <> [] ->
  url_parse_pathname (url req) = Some "/api" ->
  exists t1 t2 t3 t4 t5 t6,
    handler h (Normal {| status := st; data := d |}) req
    = Normal {| statusCode := 200;
                headers := [("Content-Type", "application/json")];
                body := Some (pretty_object
                                [("cpu", t1); ("memory", t2); ("os", t3);
                                 ("user", t4); ("process", t5); ("network", t6);
                                 ("geolocation",
                                  "{" ++ nl ++ "    " ++ QuoteJSONString "location" ++ ": "
                                    ++ QuoteJSONString "undefined, undefined, undefined"
                                    ++ nl ++ "  }")]) |}.
Proof.
  intros Hd Hc Hp.
  assert (Hg : getGeolocation (Normal {| status := st; data := d |}) = Normal undefined_result).
  { destruct d; try discriminate Hd; reflexivity. }
  destruct (handler_api h _ req _ Hc Hp Hg)
    as (t1 & t2 & t3 & t4 & t5 & t6 & t7 & H7 & Hh).
  exists t1, t2, t3, t4, t5, t6. rewrite Hh.
  vm_compute in H7. injection H7 as <-. reflexivity.
Qed.

End SysView.

(** * The claims on sample inputs *)

Lemma geolocation_failure_isolated_witness :
  caught (Throw (AxiosError NetworkError))
  /\ os_cpus (sample_host 1000 250 []) <> []
  /\ simple_pathname (url {| url := "/api?pretty=1"; method := "POST" |}) = Some "/api"
  /\ getGeolocation unused_repr (Throw (AxiosError NetworkError)) = Normal sentinel
  /\ exists t1 t2 t3 t4 t5 t6,
       handler unused_repr simple_pathname (sample_host 1000 250 [])
         (Throw (AxiosError NetworkError)) {| url := "/api?pretty=1"; method := "POST" |}
       = Normal {| statusCode := 200;
                   headers := [("Content-Type", "application/json")];
                   body := Some (pretty_object
                                   [("cpu", t1); ("memory", t2); ("os", t3);
                                    ("user", t4); ("process", t5); ("network", t6);
                                    ("geolocation", sentinel_text)]) |}.
Proof.
  split; [constructor|]. split; [discriminate|]. split; [reflexivity|].
  apply (geolocation_failure_isolated unused_repr simple_pathname
           (Throw (AxiosError NetworkError)) (sample_host 1000 250 [])
           {| url := "/api?pretty=1"; method := "POST" |});
    [constructor | discriminate | reflexivity].
Defined.

Lemma getMemoryInfo_usage_witness :
  0 < os_totalmem (sample_host 1000 250 [])
  /\ 0 <= os_freemem (sample_host 1000 250 []) <= os_totalmem (sample_host 1000 250 [])
  /\ exists n,
       (m <- getMemoryInfo unused_repr (sample_host 1000 250 []) ;; member m "usage")
       = Normal (VStr (two_places n ++ "%"))
       /\ 0 <= n <= 10000.
Proof.
  split; [reflexivity|]. split; [split; discriminate|].
  destruct (getMemoryInfo_usage unused_repr (sample_host 1000 250 []))
    as [(n & Hu & Hr & _) _]; [reflexivity | split; discriminate |].
  exists n. split; [exact Hu | exact Hr].
Defined.

(** C5 as stated fails: with 160 bytes in total and 63 free the exact
    percentage is 60.625, which rounds to 60.63; the double that the code
    computes lies just below it and prints as 60.62. *)
Lemma getMemoryInfo_usage_double_rounding :
  0 < os_totalmem (sample_host 160 63 [])
  /\ 0 <= os_freemem (sample_host 160 63 []) <= os_totalmem (sample_host 160 63 [])
  /\ usage_spec 160 63 = "60.63%"
  /\ (forall repr,
        (m <- getMemoryInfo repr (sample_host 160 63 []) ;; member m "usage")
        = Normal (VStr "60.62%"))
  /\ (forall repr,
        (m <- getMemoryInfo repr (sample_host 160 63 []) ;; member m "usage")
        <> Normal (VStr (usage_spec 160 63))).
Proof.
  split; [reflexivity|]. split; [split; discriminate|].
  split; [vm_compute; reflexivity|].
  assert (H : forall repr,
             (m <- getMemoryInfo repr (sample_host 160 63 []) ;; member m "usage")
             = Normal (VStr "60.62%")) by (intros repr; vm_compute; reflexivity).
  split; [exact H|].
  intros repr E. rewrite H in E. vm_compute in E. discriminate E.
Qed.

Lemma formatTime_decomposition_witness :
  is_double (7325 # 2) = true
  /\ (0 <= 7325 # 2)%Q
  /\ (7325 # 2 < inject_Z (2 ^ 53))%Q
  /\ formatTime_double unused_repr (7325 # 2) = "0d 1h 1m 2s"
  /\ formatDuration_spec unused_repr (7325 # 2) = "0d 1h 1m 2s".
Proof.
  split; [reflexivity|]. split; [discriminate|]. split; [reflexivity|].
  destruct (formatTime_decomposition unused_repr (7325 # 2)) as [H _];
    [reflexivity | discriminate | reflexivity |].
  split; [|reflexivity]. rewrite H. reflexivity.
Defined.

(** C6 as stated fails: 7.8e20 seconds is a double.  Its exact quotient by
    86400 is 9027777777777777.77..., and the doubles of that size are the
    even integers, so the code's quotient is 9027777777777778: one day more
    than the floor division gives. *)
Lemma formatTime_day_count_rounded :
  is_double (inject_Z 780000000000000000000) = true
  /\ (0 <= inject_Z 780000000000000000000)%Q
  /\ formatTime_parts (inject_Z 780000000000000000000) = (9027777777777778, 18, 40, 0)
  /\ duration_parts (Qfloor (inject_Z 780000000000000000000))
     = (9027777777777777, 18, 40, 0)
  /\ formatTime_parts (inject_Z 780000000000000000000)
     <> duration_parts (Qfloor (inject_Z 780000000000000000000)).
Proof.
  split; [vm_compute; reflexivity|]. split; [discriminate|].
  split; [vm_compute; reflexivity|]. split; [vm_compute; reflexivity|].
  vm_compute. intros E. discriminate E.
Qed.

Lemma getGeolocation_success_witness :
  getGeolocation unused_repr full_body
  = Normal (VObj [("location", VStr "Tallinn, Harjumaa, EE");
                  ("coordinates", VStr "59.4370,24.7535")]).
Proof.
  apply (getGeolocation_success unused_repr 200
           [("ip", VStr "203.0.113.7"); ("city", VStr "Tallinn");
            ("region", VStr "Harjumaa"); ("country", VStr "EE");
            ("loc", VStr "59.4370,24.7535")]
           "Tallinn" "Harjumaa" "EE" "59.4370,24.7535"); reflexivity.
Defined.

Lemma route_not_found_witness :
  simple_pathname (url {| url := "/metrics?x=1"; method := "DELETE" |}) <> Some "/"
  /\ simple_pathname (url {| url := "/metrics?x=1"; method := "DELETE" |}) <> Some "/api"
  /\ handler unused_repr simple_pathname (sample_host 1000 250 []) full_body
       {| url := "/metrics?x=1"; method := "DELETE" |}
     = Normal {| statusCode := 404;
                 headers := [("Content-Type", "application/json")];
                 body := Some ("{" ++ dq ++ "error" ++ dq ++ ":" ++ dq
                                 ++ "Route not found" ++ dq ++ "}") |}.
Proof.
  split; [discriminate|]. split; [discriminate|].
  apply (route_not_found unused_repr simple_pathname (sample_host 1000 250 []) full_body
           {| url := "/metrics?x=1"; method := "DELETE" |}); discriminate.
Defined.

Lemma api_document_witness :
  os_cpus (sample_host 1000 250 []) <> []
  /\ simple_pathname (url {| url := "/api"; method := "PUT" |}) = Some "/api"
  /\ exists t1 t2 t3 t4 t5 t6 t7,
       handler unused_repr simple_pathname (sample_host 1000 250 []) full_body
         {| url := "/api"; method := "PUT" |}
       = Normal {| statusCode := 200;
                   headers := [("Content-Type", "application/json")];
                   body := Some (pretty_object
                                   [("cpu", t1); ("memory", t2); ("os", t3);
                                    ("user", t4); ("process", t5); ("network", t6);
                                    ("geolocation", t7)]) |}.
Proof.
  split; [discriminate|]. split; [reflexivity|].
  destruct (api_document unused_repr simple_pathname (sample_host 1000 250 []) full_body
              {| url := "/api"; method := "PUT" |})
    as (cpu & memory & os & user & process & network & g
        & t1 & t2 & t3 & t4 & t5 & t6 & t7 & _ & _ & _ & Hh);
    [discriminate | reflexivity |].
  exists t1, t2, t3, t4, t5, t6, t7. exact Hh.
Defined.

(** C9 as stated fails: on a host whose CPU list is empty the request to
    "/api" ends in a [TypeError] and no response is written. *)
Lemma api_unanswered_without_cpu :
  os_cpus cpuless_host = []
  /\ simple_pathname (url {| url := "/api"; method := "GET" |}) = Some "/api"
  /\ (forall repr,
        handler repr simple_pathname cpuless_host full_body
          {| url := "/api"; method := "GET" |}
        = Throw TypeError)
  /\ (forall repr,
        ~ exists res,
            handler repr simple_pathname cpuless_host full_body
              {| url := "/api"; method := "GET" |}
            = Normal res).
Proof.
  split; [reflexivity|]. split; [reflexivity|].
  split; [intros repr; reflexivity|].
  intros repr [res H]. discriminate H.
Qed.

Lemma NODE_ENV_falsy_default_witness :
  (getenv (process_env (sample_host 1000 250 [("NODE_ENV", "")])) "NODE_ENV" = Some ""
   \/ getenv (process_env (sample_host 1000 250 [("NODE_ENV", "")])) "NODE_ENV" = None)
  /\ (p <- getProcessInfo unused_repr (sample_host 1000 250 [("NODE_ENV", "")]) ;;
      e <- member p "env" ;; member e "NODE_ENV")
     = Normal (VStr "Not set").
Proof.
  split; [left; reflexivity|].
  apply (NODE_ENV_falsy_default unused_repr (sample_host 1000 250 [("NODE_ENV", "")])).
  left. reflexivity.
Defined.

(** C1 as stated fails: a fulfilled call whose body has none of the four
    fields is not answered with the sentinel. *)
Lemma missing_fields_not_sentinel :
  missing_fields empty_body
  /\ (forall repr,
        getGeolocation repr empty_body
        = Normal (VObj [("location", VStr "undefined, undefined, undefined");
                        ("coordinates", VUndefined)]))
  /\ (forall repr, getGeolocation repr empty_body <> Normal sentinel).
Proof.
  split; [|split].
  - exists 200, []. split; [reflexivity | left; reflexivity].
  - intros repr. reflexivity.
  - intros repr H. discriminate H.
Qed.

(** C4 as stated fails: with 1000 bytes in total and 250 free, no field of
    the memory snapshot holds a byte count as a number. *)
Lemma memory_snapshot_without_counts :
  ~ exists repr snapshot,
      getMemoryInfo repr (sample_host 1000 250 []) = Normal snapshot
      /\ holds_byte_counts snapshot 1000 250.
Proof.
  intros (repr & snapshot & H & props & k1 & k2 & -> & H1 & _).
  vm_compute in H. injection H as <-.
  cbn [lookup] in H1.
  repeat match type of H1 with
         | (if ?b then _ else _) = _ => destruct b; try discriminate H1
         end.
Qed.

(** The dashboard route on the sample host. *)
Example dashboard_sample :
  exists page,
    handler unused_repr simple_pathname (sample_host 1000 250 []) full_body
      {| url := "/"; method := "GET" |}
    = Normal {| statusCode := 200;
                headers := [("Content-Type", "text/html")];
                body := Some page |}.
Proof. eexists. vm_compute. reflexivity. Qed.

(** * The further properties on sample inputs *)

Lemma formatBytes_in_table_range_witness :
  1 <= 1048575 < 1024 ^ 4
  /\ exists i unit,
       0 <= i <= 3
       /\ 1024 ^ i <= 1048575 < 1024 ^ (i + 1)
       /\ nth_error sizes (Z.to_nat i) = Some unit
       /\ 100 <= round_half_up (1048575 * 100) (1024 ^ i) <= 102400
       /\ formatBytes unused_repr 1048575 default_decimal
          = Normal (two_places (round_half_up (1048575 * 100) (1024 ^ i)) ++ " " ++ unit).
Proof.
  split; [split; [discriminate | reflexivity]|].
  apply (formatBytes_in_table_range unused_repr 1048575).
  split; [discriminate | reflexivity].
Defined.

Lemma formatBytes_beyond_table_witness :
  1024 ^ 5 <= 2 ^ 60
  /\ exists text, formatBytes unused_repr (2 ^ 60) default_decimal = Normal (text ++ " undefined").
Proof.
  split; [discriminate|].
  apply (formatBytes_beyond_table unused_repr (2 ^ 60)). discriminate.
Defined.

Lemma formatBytes_negative_count_witness :
  -1 < 0 /\ 0 <= 2 <= 100 /\ formatBytes unused_repr (-1) 2 = Normal "NaN undefined".
Proof.
  split; [reflexivity|]. split; [split; discriminate|].
  apply (formatBytes_negative_count unused_repr (-1) 2);
    [reflexivity | split; discriminate].
Defined.

Lemma formatBytes_throws_iff_witness :
  (1536 <> 0 /\ (101 < 0 \/ 100 < 101))
  /\ formatBytes unused_repr 1536 101 = Throw RangeError.
Proof.
  assert (H : 1536 <> 0 /\ (101 < 0 \/ 100 < 101)).
  { split; [discriminate | right; reflexivity]. }
  split; [exact H|].
  apply (proj1 (formatBytes_throws_iff unused_repr 1536 101)). exact H.
Defined.

Lemma formatBytes_decimal_places_witness :
  1 <= 1536 /\ 1 <= 3 <= 100
  /\ exists whole frac unit_text,
       formatBytes unused_repr 1536 3 = Normal (whole ++ "." ++ frac ++ " " ++ unit_text)
       /\ String.length frac = Z.to_nat 3
       /\ (1 <= String.length whole)%nat.
Proof.
  split; [discriminate|]. split; [split; discriminate|].
  apply (formatBytes_decimal_places unused_repr 1536 3);
    [discriminate | split; discriminate].
Defined.

Lemma formatTime_recomposes_witness :
  is_double (180123 # 2) = true
  /\ (0 <= 180123 # 2)%Q
  /\ (180123 # 2 < inject_Z (2 ^ 53))%Q
  /\ exists d h m s,
       Qfloor (180123 # 2) = d * 86400 + h * 3600 + m * 60 + s
       /\ 0 <= d /\ 0 <= h < 24 /\ 0 <= m < 60 /\ 0 <= s < 60
       /\ formatTime_double unused_repr (180123 # 2)
          = decimal d ++ "d " ++ decimal h ++ "h " ++ decimal m ++ "m " ++ decimal s ++ "s".
Proof.
  split; [reflexivity|]. split; [discriminate|]. split; [reflexivity|].
  apply (formatTime_recomposes unused_repr (180123 # 2));
    [reflexivity | discriminate | reflexivity].
Defined.


Lemma formatTime_small_negative_witness :
  (- (1) <= -1 # 2)%Q /\ (-1 # 2 <= - two_pow (-1022))%Q
  /\ formatTime_double unused_repr (-1 # 2) = "-1d -1h -1m -1s".
Proof.
  split; [discriminate|]. split; [vm_compute; discriminate|].
  apply (formatTime_small_negative unused_repr (-1 # 2));
    [discriminate | vm_compute; discriminate].
Defined.

Lemma usage_between_0_and_100_witness :
  0 < os_totalmem (sample_host 1000 0 [])
  /\ 0 <= os_freemem (sample_host 1000 0 []) <= os_totalmem (sample_host 1000 0 [])
  /\ (m <- getMemoryInfo unused_repr (sample_host 1000 0 []) ;; member m "usage")
     = Normal (VStr "100.00%").
Proof.
  split; [reflexivity|]. split; [split; discriminate|].
  apply (usage_between_0_and_100 unused_repr (sample_host 1000 0 []));
    [reflexivity | split; discriminate | reflexivity].
Defined.

Lemma getMemoryInfo_zero_total_witness :
  os_totalmem (sample_host 0 0 []) = 0
  /\ 0 <= os_freemem (sample_host 0 0 [])
  /\ exists free,
       formatBytes unused_repr (os_freemem (sample_host 0 0 [])) default_decimal = Normal free
       /\ getMemoryInfo unused_repr (sample_host 0 0 [])
          = Normal (VObj [("total", VStr "0 Bytes"); ("free", VStr free);
                          ("usage",
                           VStr (if os_freemem (sample_host 0 0 []) =? 0
                                 then "NaN%" else "-Infinity%"))]).
Proof.
  split; [reflexivity|]. split; [discriminate|].
  apply (getMemoryInfo_zero_total unused_repr (sample_host 0 0 []));
    [reflexivity | discriminate].
Defined.

Lemma getGeolocation_fieldless_body_witness :
  fieldless (VStr "<html></html>") = true
  /\ getGeolocation unused_repr (Normal {| status := 200; data := VStr "<html></html>" |})
     = Normal undefined_result.
Proof.
  split; [reflexivity|].
  apply (getGeolocation_fieldless_body unused_repr 200 (VStr "<html></html>")). reflexivity.
Defined.

Lemma getGeolocation_four_fields_only_witness :
  getGeolocation unused_repr
    (Normal {| status := 200; data := VObj [("city", VStr "Tartu"); ("ip", VStr "203.0.113.7")] |})
  = getGeolocation unused_repr
      (Normal {| status := 203; data := VObj [("org", VNull); ("city", VStr "Tartu")] |}).
Proof.
  apply (getGeolocation_four_fields_only unused_repr 200 203
           [("city", VStr "Tartu"); ("ip", VStr "203.0.113.7")]
           [("org", VNull); ("city", VStr "Tartu")]); reflexivity.
Defined.

Lemma NODE_ENV_reported_witness :
  getenv (process_env (sample_host 1000 250 [("NODE_ENV", "production")])) "NODE_ENV"
  = Some "production"
  /\ "production" <> ""
  /\ (p <- getProcessInfo unused_repr (sample_host 1000 250 [("NODE_ENV", "production")]) ;;
      e <- member p "env" ;; member e "NODE_ENV")
     = Normal (VStr "production").
Proof.
  split; [reflexivity|]. split; [discriminate|].
  apply (NODE_ENV_reported unused_repr (sample_host 1000 250 [("NODE_ENV", "production")])
           "production"); [reflexivity | discriminate].
Defined.

Lemma listening_banner_port_witness :
  (getenv (process_env (sample_host 1000 250 [("PORT", "")])) "PORT" = None
   \/ getenv (process_env (sample_host 1000 250 [("PORT", "")])) "PORT" = Some "")
  /\ PORT (sample_host 1000 250 [("PORT", "")]) = VNum (of_int 10000)
  /\ listening_banner unused_repr (sample_host 1000 250 [("PORT", "")])
     = Normal "SysView is running at http://localhost:10000".
Proof.
  assert (H : getenv (process_env (sample_host 1000 250 [("PORT", "")])) "PORT" = None
              \/ getenv (process_env (sample_host 1000 250 [("PORT", "")])) "PORT" = Some "").
  { right. reflexivity. }
  split; [exact H|].
  apply (proj1 (listening_banner_port unused_repr (sample_host 1000 250 [("PORT", "")]))).
  exact H.
Defined.

Lemma QuoteJSONString_no_control_witness :
  In "\"%char (list_ascii_of_string (QuoteJSONString ("a" ++ nl)))
  /\ (32 <= nat_of_ascii "\"%char)%nat.
Proof.
  assert (H : In "\"%char (list_ascii_of_string (QuoteJSONString ("a" ++ nl)))).
  { vm_compute. right. right. left. reflexivity. }
  split; [exact H|].
  apply (QuoteJSONString_no_control ("a" ++ nl) "\"%char). exact H.
Defined.

Lemma dashboard_without_geolocation_witness :
  caught (Throw (AxiosError (BadStatus 503)))
  /\ os_cpus (sample_host 1000 250 []) <> []
  /\ simple_pathname (url {| url := "/?lang=et"; method := "GET" |}) = Some "/"
  /\ exists before after,
       handler unused_repr simple_pathname (sample_host 1000 250 [])
         (Throw (AxiosError (BadStatus 503))) {| url := "/?lang=et"; method := "GET" |}
       = Normal {| statusCode := 200;
                   headers := [("Content-Type", "text/html")];
                   body := Some (before
                                   ++ "  <pre>Location: Location not found</pre>" ++ nl
                                   ++ "  <pre>Coordinates: Not available</pre>"
                                   ++ after) |}.
Proof.
  split; [constructor|]. split; [discriminate|]. split; [reflexivity|].
  apply (dashboard_without_geolocation unused_repr simple_pathname
           (sample_host 1000 250 []) (Throw (AxiosError (BadStatus 503)))
           {| url := "/?lang=et"; method := "GET" |});
    [constructor | discriminate | reflexivity].
Defined.

Lemma dashboard_shows_fields_verbatim_witness :
  lookup [("city", VStr "<b>Tallinn</b>"); ("region", VStr "Harjumaa");
          ("country", VStr "EE"); ("loc", VStr "59.4370,24.7535")] "city"
  = Some (VStr "<b>Tallinn</b>")
  /\ os_cpus (sample_host 1000 250 []) <> []
  /\ simple_pathname (url {| url := "/"; method := "GET" |}) = Some "/"
  /\ exists before after,
       handler unused_repr simple_pathname (sample_host 1000 250 [])
         (Normal {| status := 200;
                    data := VObj [("city", VStr "<b>Tallinn</b>"); ("region", VStr "Harjumaa");
                                  ("country", VStr "EE"); ("loc", VStr "59.4370,24.7535")] |})
         {| url := "/"; method := "GET" |}
       = Normal {| statusCode := 200;
                   headers := [("Content-Type", "text/html")];
                   body := Some (before
                                   ++ "  <pre>Location: " ++ "<b>Tallinn</b>" ++ ", "
                                   ++ "Harjumaa" ++ ", " ++ "EE" ++ "</pre>" ++ nl
                                   ++ "  <pre>Coordinates: " ++ "59.4370,24.7535" ++ "</pre>"
                                   ++ after) |}.
Proof.
  split; [reflexivity|]. split; [discriminate|]. split; [reflexivity|].
  apply (dashboard_shows_fields_verbatim unused_repr simple_pathname
           (sample_host 1000 250 []) {| url := "/"; method := "GET" |} 200
           [("city", VStr "<b>Tallinn</b>"); ("region", VStr "Harjumaa");
            ("country", VStr "EE"); ("loc", VStr "59.4370,24.7535")]
           "<b>Tallinn</b>" "Harjumaa" "EE" "59.4370,24.7535");
    [reflexivity | reflexivity | reflexivity | reflexivity | discriminate | reflexivity].
Defined.

Lemma dashboard_unprintable_coordinates_witness :
  lookup wrapped_loc "loc" = Some (VObj [("toString", VStr "59.4370,24.7535")])
  /\ has_own [("toString", VStr "59.4370,24.7535")] "toString" = true
  /\ os_cpus (sample_host 1000 250 []) <> []
  /\ simple_pathname (url {| url := "/"; method := "GET" |}) = Some "/"
  /\ handler unused_repr simple_pathname (sample_host 1000 250 [])
       (Normal {| status := 200; data := VObj wrapped_loc |})
       {| url := "/"; method := "GET" |}
     = Throw TypeError.
Proof.
  split; [reflexivity|]. split; [reflexivity|]. split; [discriminate|].
  split; [reflexivity|].
  apply (proj1 (dashboard_unprintable_coordinates unused_repr simple_pathname
                  (sample_host 1000 250 []) {| url := "/"; method := "GET" |} 200
                  wrapped_loc [("toString", VStr "59.4370,24.7535")]
                  "Tallinn" "Harjumaa" "EE"
                  eq_refl eq_refl eq_refl eq_refl eq_refl ltac:(discriminate))).
  reflexivity.
Defined.

Lemma no_cpu_rejects_witness :
  os_cpus cpuless_host = []
  /\ (simple_pathname (url {| url := "/api"; method := "GET" |}) = Some "/"
      \/ simple_pathname (url {| url := "/api"; method := "GET" |}) = Some "/api")
  /\ handler unused_repr simple_pathname cpuless_host full_body
       {| url := "/api"; method := "GET" |}
     = Throw TypeError.
Proof.
  split; [reflexivity|]. split; [right; reflexivity|].
  apply (no_cpu_rejects unused_repr simple_pathname cpuless_host full_body
           {| url := "/api"; method := "GET" |}); [reflexivity | right; reflexivity].
Defined.

Lemma api_without_coordinates_witness :
  fieldless (VStr "Too Many Requests") = true
  /\ os_cpus (sample_host 1000 250 []) <> []
  /\ simple_pathname (url {| url := "/api"; method := "GET" |}) = Some "/api"
  /\ exists t1 t2 t3 t4 t5 t6,
       handler unused_repr simple_pathname (sample_host 1000 250 [])
         (Normal {| status := 200; data := VStr "Too Many Requests" |})
         {| url := "/api"; method := "GET" |}
       = Normal {| statusCode := 200;
                   headers := [("Content-Type", "application/json")];
                   body := Some (pretty_object
                                   [("cpu", t1); ("memory", t2); ("os", t3);
                                    ("user", t4); ("process", t5); ("network", t6);
                                    ("geolocation",
                                     "{" ++ nl ++ "    " ++ QuoteJSONString "location" ++ ": "
                                       ++ QuoteJSONString "undefined, undefined, undefined"
                                       ++ nl ++ "  }")]) |}.
Proof.
  split; [reflexivity|]. split; [discriminate|]. split; [reflexivity|].
  apply (api_without_coordinates unused_repr simple_pathname (sample_host 1000 250 [])
           {| url := "/api"; method := "GET" |} 200 (VStr "Too Many Requests"));
    [reflexivity | discriminate | reflexivity].
Defined.
